(** * Front-end controller of the stock research page ([app/static/app.js])

    A shallow embedding of the page script: the [isLoading] flag, the parts
    of the document the script reads and writes, the timers it schedules and
    the two network calls it makes.  Each handler of the script is a function
    on the page state; the two asynchronous functions are cut at their
    awaits, and what runs after the awaits is a function of the outcome of
    the call. *)

From Stdlib Require Import ZArith NArith String Ascii List Lia Bool.
From stdpp Require Import base decidable list.

Open Scope N_scope.
Set Warnings "-register-all".

(* ===================================================================== *)
(** ** JavaScript strings *)
(* ===================================================================== *)

(** A JavaScript string is a sequence of UTF-16 code units. *)
Definition jsstring := list N.

(** String literals of the script are written as Rocq strings (UTF-8 bytes)
    and decoded to code units by [js]. *)
Fixpoint code_points (bytes : list N) : list N :=
  match bytes with
  | [] => []
  | b0 :: r0 =>
    if b0 <? 0x80 then b0 :: code_points r0
    else
      match r0 with
      | [] => []
      | b1 :: r1 =>
        if b0 <? 0xE0 then
          N.lor (N.shiftl (N.land b0 0x1F) 6) (N.land b1 0x3F) :: code_points r1
        else
          match r1 with
          | [] => []
          | b2 :: r2 =>
            if b0 <? 0xF0 then
              N.lor (N.shiftl (N.land b0 0x0F) 12)
                (N.lor (N.shiftl (N.land b1 0x3F) 6) (N.land b2 0x3F))
                :: code_points r2
            else
              match r2 with
              | [] => []
              | b3 :: r3 =>
                N.lor (N.shiftl (N.land b0 0x07) 18)
                  (N.lor (N.shiftl (N.land b1 0x3F) 12)
                     (N.lor (N.shiftl (N.land b2 0x3F) 6) (N.land b3 0x3F)))
                  :: code_points r3
              end
          end
      end
  end.

Definition code_units (cp : N) : list N :=
  if cp <? 0x10000 then [cp]
  else
    let c := cp - 0x10000 in
    [0xD800 + N.shiftr c 10; 0xDC00 + N.land c 0x3FF].

Definition js (s : string) : jsstring :=
  concat (map code_units (code_points (map N_of_ascii (list_ascii_of_string s)))).

(** [String.prototype.trim] removes white space and line terminators from
    both ends: TAB, LF, VT, FF, CR, SP, NBSP, the Unicode space separators,
    LS, PS and the byte order mark. *)
Definition is_white_space (c : N) : bool :=
  ((0x09 <=? c) && (c <=? 0x0D))
  || (c =? 0x20) || (c =? 0xA0) || (c =? 0x1680)
  || ((0x2000 <=? c) && (c <=? 0x200A))
  || (c =? 0x2028) || (c =? 0x2029) || (c =? 0x202F) || (c =? 0x205F)
  || (c =? 0x3000) || (c =? 0xFEFF).

Fixpoint trimStart (s : jsstring) : jsstring :=
  match s with
  | c :: r => if is_white_space c then trimStart r else s
  | [] => []
  end.

Definition trimEnd (s : jsstring) : jsstring := rev (trimStart (rev s)).

Definition trim (s : jsstring) : jsstring := trimEnd (trimStart s).

(** [s.startsWith(p)], giving the rest of [s] after [p]. *)
Fixpoint strip_prefix (p s : jsstring) : option jsstring :=
  match p, s with
  | [], _ => Some s
  | a :: p', b :: s' => if a =? b then strip_prefix p' s' else None
  | _ :: _, [] => None
  end.

(** [s.replace(p, r)] with a string pattern: the first occurrence of [p]
    only. *)
Fixpoint replace (p r s : jsstring) : jsstring :=
  match strip_prefix p s with
  | Some rest => r ++ rest
  | None =>
    match s with
    | [] => []
    | c :: s' => c :: replace p r s'
    end
  end.

(** Decimal numeral of an integer, as [String(n)] prints it. *)
Fixpoint digits (fuel : nat) (n : N) (acc : jsstring) : jsstring :=
  match fuel with
  | O => acc
  | S fuel' =>
    let acc' := (0x30 + n mod 10) :: acc in
    if n <? 10 then acc' else digits fuel' (n / 10) acc'
  end.

Definition decimal (z : Z) : jsstring :=
  let n := Z.abs_N z in
  let ds := digits (S (N.to_nat (N.log2 n))) n [] in
  if (z <? 0)%Z then 0x2D :: ds else ds.

(** The Number nearest to the integer [n], itself an integer: [n] rounded
    to 53 significant bits, ties to the even one. *)
Definition nearest_number (n : N) : N :=
  let e := N.log2 n - 52 in
  let q := N.shiftr n e in
  let r := n - N.shiftl q e in
  let half := N.shiftl 1 (e - 1) in
  let q' := if (half <? r) || ((r =? half) && N.odd q) then q + 1 else q in
  N.shiftl q' e.

(** The fewest digits [s] (there are [k] of them) with which [s * 10^(n-k)]
    reads back as the Number [x], which has [n] digits; of two such [s] the
    one nearer to [x]. *)
Fixpoint shortest_digits (fuel : nat) (k n x : N) : N * N :=
  match fuel with
  | O => (x, n)
  | S fuel' =>
    let p := 10 ^ (n - k) in
    let lo := x / p in
    let hi := lo + 1 in
    let lo_reads := nearest_number (lo * p) =? x in
    let hi_reads := (hi <? 10 ^ k) && (nearest_number (hi * p) =? x) in
    if lo_reads && hi_reads then
      let below := x - lo * p in
      let above := hi * p - x in
      if below <? above then (lo, k)
      else if above <? below then (hi, k)
      else if N.even lo then (lo, k) else (hi, k)
    else if lo_reads then (lo, k)
    else if hi_reads then (hi, k)
    else shortest_digits fuel' (k + 1) n x
  end.

(** [Number::toString] of the Number an integer [m] of 2^53 or more is read
    as: the fewest digits that read back as that Number, padded with zeros
    up to 21 digits and in exponent form beyond, and [Infinity] past the
    largest Number. *)
Definition large_number_text (m : N) : jsstring :=
  let x := nearest_number m in
  if 2 ^ 1024 <=? x then
    [0x49; 0x6E; 0x66; 0x69; 0x6E; 0x69; 0x74; 0x79]
  else
    let n := N.of_nat (length (decimal (Z.of_N x))) in
    let '(s, k, n) :=
      if nearest_number (10 ^ n) =? x then (1, 1, n + 1)
      else let '(s, k) := shortest_digits (N.to_nat n) 1 n x in (s, k, n) in
    let ds := decimal (Z.of_N s) in
    if n <=? 21 then ds ++ repeat 0x30 (N.to_nat (n - k))
    else
      match ds with
      | [] => []
      | d :: rest =>
        let mantissa :=
          match rest with
          | [] => [d]
          | _ :: _ => d :: 0x2E :: rest
          end in
        mantissa ++ [0x65; 0x2B] ++ decimal (Z.of_N (n - 1))
      end.

(** [String(n)] for the Number an integer literal [z] is read as. *)
Definition Number_toString (z : Z) : jsstring :=
  if (Z.abs z <? 2 ^ 53)%Z then decimal z
  else if (z <? 0)%Z then 0x2D :: large_number_text (Z.abs_N z)
  else large_number_text (Z.abs_N z).

(** What the [value] setter of a single-line text input keeps of a string:
    line feeds and carriage returns are taken out. *)
Definition strip_newlines (s : jsstring) : jsstring :=
  List.filter (fun c => negb ((c =? 0x0A) || (c =? 0x0D))) s.

(** [s.includes(p)]. *)
Fixpoint includes (p s : jsstring) : bool :=
  match strip_prefix p s with
  | Some _ => true
  | None =>
    match s with
    | [] => false
    | _ :: s' => includes p s'
    end
  end.

(* ===================================================================== *)
(** ** JavaScript values *)
(* ===================================================================== *)

(** What [res.json()] yields, and [undefined] for a property that is not
    there.  [VNum z] is the Number the integer literal [z] is read as: [z]
    itself below 2^53 in magnitude, the nearest Number beyond; numbers with
    a fraction are not among the values.  [VObj] lists the own properties
    of an object, each name once. *)
Inductive value :=
| VUndefined
| VNull
| VBool (b : bool)
| VNum (z : Z)
| VStr (s : jsstring)
| VArr (items : list value)
| VObj (props : list (jsstring * value)).

(** A completion: normal with a result, or abrupt by a thrown exception. *)
Inductive completion (A : Type) :=
| Return (a : A)
| Throw.
Arguments Return {A} a.
Arguments Throw {A}.

Fixpoint lookup_prop (name : jsstring) (props : list (jsstring * value)) : value :=
  match props with
  | [] => VUndefined
  | (k, v) :: rest => if decide (k = name) then v else lookup_prop name rest
  end.

(** [v.name] for the property names the script reads ([remaining], [total],
    [error], [message], [ticker], [name], [cached], [content]): none of them
    is inherited from a prototype, so only an object can have one, and
    reading a property of [null] or [undefined] throws a TypeError. *)
Definition get_prop (v : value) (name : jsstring) : completion value :=
  match v with
  | VUndefined | VNull => Throw
  | VObj props => Return (lookup_prop name props)
  | _ => Return VUndefined
  end.

(** ToBoolean. *)
Definition truthy (v : value) : bool :=
  match v with
  | VUndefined | VNull => false
  | VBool b => b
  | VNum z => negb (z =? 0)%Z
  | VStr s => match s with [] => false | _ => true end
  | VArr _ | VObj _ => true
  end.

(** [a || b]. *)
Definition or_else (a b : value) : value := if truthy a then a else b.

(** Whether an object has an own property [name]. *)
Definition has_prop (name : jsstring) (props : list (jsstring * value)) : bool :=
  existsb (fun kv => bool_decide (fst kv = name)) props.

(** ToString.  An object prints as [[object Object]] through the
    [toString] it inherits; an own property [toString], which in a parsed
    body is never a function, hides that one, and the conversion throws a
    TypeError.  An array joins its elements with commas, [null] and
    [undefined] elements printing as nothing. *)
Fixpoint toString (v : value) : completion jsstring :=
  match v with
  | VUndefined => Return (js "undefined")
  | VNull => Return (js "null")
  | VBool true => Return (js "true")
  | VBool false => Return (js "false")
  | VNum z => Return (Number_toString z)
  | VStr s => Return s
  | VObj props =>
    if has_prop (js "toString") props then Throw
    else Return (js "[object Object]")
  | VArr items =>
    let element x :=
      match x with
      | VUndefined | VNull => Return []
      | _ => toString x
      end in
    (fix join (l : list value) : completion jsstring :=
       match l with
       | [] => Return []
       | x :: rest =>
         match element x with
         | Throw => Throw
         | Return first =>
           match rest with
           | [] => Return first
           | _ :: _ =>
             match join rest with
             | Throw => Throw
             | Return others => Return (first ++ js "," ++ others)
             end
           end
         end
       end) items
  end.

(** The value a [textContent] setter stores: the attribute is a nullable
    string, so [null] and [undefined] clear the text, and any other value
    is converted, which may throw. *)
Definition text_of (v : value) : completion jsstring :=
  match v with
  | VUndefined | VNull => Return []
  | _ => toString v
  end.

(** [v === n] for a number literal [n]. *)
Definition strict_eq_num (v : value) (n : Z) : bool :=
  match v with
  | VNum z => (z =? n)%Z
  | _ => false
  end.

(* ===================================================================== *)
(** ** The document *)
(* ===================================================================== *)

(** [style.display] of a section as the script sets it. *)
Inductive display := none | block.

Definition visible (d : display) : bool :=
  match d with block => true | none => false end.

(** The four sections [heroSection], [loadingSection], [errorSection] and
    [reportSection]. *)
Record sections := {
  heroSection : display;
  loadingSection : display;
  errorSection : display;
  reportSection : display
}.

(** A [classList]: the tokens of the element's class, in order. *)
Definition classList := list jsstring.

Definition classList_remove (tokens : list jsstring) (cl : classList) : classList :=
  filter (fun t => t ∉ tokens) cl.

Definition classList_add (token : jsstring) (cl : classList) : classList :=
  if decide (token ∈ cl) then cl else cl ++ [token].

(** An element of which the script uses the class list and the text. *)
Record element := {
  classes : classList;
  textContent : jsstring
}.

(** The report section: [reportTicker], [reportName], [reportBadge] (text
    and [className]) and [reportContent] ([innerHTML]). *)
Record reportView := {
  reportTicker : jsstring;
  reportName : jsstring;
  reportBadgeText : jsstring;
  reportBadgeClass : jsstring;
  reportContent : jsstring
}.

Record document := {
  tickerInput : jsstring;          (* tickerInput.value *)
  searchBoxAnimation : jsstring;   (* .search-box style.animation *)
  views : sections;
  loadingTicker : jsstring;
  steps : list element;            (* step1 .. step4 *)
  report : reportView;
  errorTitle : jsstring;
  errorMessage : jsstring;
  quotaValue : element
}.

(* ===================================================================== *)
(** ** The page state *)
(* ===================================================================== *)

Inductive request :=
| GetQuota                         (* fetch('/api/quota') *)
| PostResearch (ticker : jsstring). (* POST /api/research, body {ticker} *)

(** How a [fetch] followed by [res.json()] ends: the call throws, or a
    response arrives with its [ok] flag and a body that parses ([Some]) or
    does not ([None], [res.json()] throws). *)
Inductive outcome :=
| FetchThrows
| Response (ok : bool) (body : option value).

(** The callbacks given to [setTimeout]: the one of step [i] of the loading
    animation, and the one that ends the shake of the search box. *)
Inductive callback :=
| StepTimer (i : nat)
| ShakeTimer.

(** Effects on the window that leave no trace in the document. *)
Inductive effect :=
| FocusInput
| ScrollToTop
| ScrollReportIntoView.

Record state := {
  isLoading : bool;
  doc : document;
  timers : list (callback * N);    (* pending timers, with their delay *)
  calls : list request;            (* network calls issued so far *)
  researchInFlight : nat;          (* calls of handleSearch at their await *)
  quotaInFlight : nat;             (* calls of updateQuota at their await *)
  console : list jsstring;         (* console.error *)
  effects : list effect
}.

(** *** Assignments to the document and to the state *)

Definition set_heroSection (x : display) (v : sections) : sections :=
  {| heroSection := x; loadingSection := loadingSection v;
     errorSection := errorSection v; reportSection := reportSection v |}.

Definition set_loadingSection (x : display) (v : sections) : sections :=
  {| heroSection := heroSection v; loadingSection := x;
     errorSection := errorSection v; reportSection := reportSection v |}.

Definition set_errorSection (x : display) (v : sections) : sections :=
  {| heroSection := heroSection v; loadingSection := loadingSection v;
     errorSection := x; reportSection := reportSection v |}.

Definition set_reportSection (x : display) (v : sections) : sections :=
  {| heroSection := heroSection v; loadingSection := loadingSection v;
     errorSection := errorSection v; reportSection := x |}.

Definition set_views (v : sections) (d : document) : document :=
  {| tickerInput := tickerInput d; searchBoxAnimation := searchBoxAnimation d;
     views := v; loadingTicker := loadingTicker d; steps := steps d;
     report := report d; errorTitle := errorTitle d;
     errorMessage := errorMessage d; quotaValue := quotaValue d |}.

Definition set_tickerInput (x : jsstring) (d : document) : document :=
  {| tickerInput := x; searchBoxAnimation := searchBoxAnimation d;
     views := views d; loadingTicker := loadingTicker d; steps := steps d;
     report := report d; errorTitle := errorTitle d;
     errorMessage := errorMessage d; quotaValue := quotaValue d |}.

Definition set_searchBoxAnimation (x : jsstring) (d : document) : document :=
  {| tickerInput := tickerInput d; searchBoxAnimation := x;
     views := views d; loadingTicker := loadingTicker d; steps := steps d;
     report := report d; errorTitle := errorTitle d;
     errorMessage := errorMessage d; quotaValue := quotaValue d |}.

Definition set_loadingTicker (x : jsstring) (d : document) : document :=
  {| tickerInput := tickerInput d; searchBoxAnimation := searchBoxAnimation d;
     views := views d; loadingTicker := x; steps := steps d;
     report := report d; errorTitle := errorTitle d;
     errorMessage := errorMessage d; quotaValue := quotaValue d |}.

Definition set_steps (x : list element) (d : document) : document :=
  {| tickerInput := tickerInput d; searchBoxAnimation := searchBoxAnimation d;
     views := views d; loadingTicker := loadingTicker d; steps := x;
     report := report d; errorTitle := errorTitle d;
     errorMessage := errorMessage d; quotaValue := quotaValue d |}.

Definition set_report (x : reportView) (d : document) : document :=
  {| tickerInput := tickerInput d; searchBoxAnimation := searchBoxAnimation d;
     views := views d; loadingTicker := loadingTicker d; steps := steps d;
     report := x; errorTitle := errorTitle d;
     errorMessage := errorMessage d; quotaValue := quotaValue d |}.

Definition set_errorTitle (x : jsstring) (d : document) : document :=
  {| tickerInput := tickerInput d; searchBoxAnimation := searchBoxAnimation d;
     views := views d; loadingTicker := loadingTicker d; steps := steps d;
     report := report d; errorTitle := x;
     errorMessage := errorMessage d; quotaValue := quotaValue d |}.

Definition set_errorMessage (x : jsstring) (d : document) : document :=
  {| tickerInput := tickerInput d; searchBoxAnimation := searchBoxAnimation d;
     views := views d; loadingTicker := loadingTicker d; steps := steps d;
     report := report d; errorTitle := errorTitle d;
     errorMessage := x; quotaValue := quotaValue d |}.

Definition set_quotaValue (x : element) (d : document) : document :=
  {| tickerInput := tickerInput d; searchBoxAnimation := searchBoxAnimation d;
     views := views d; loadingTicker := loadingTicker d; steps := steps d;
     report := report d; errorTitle := errorTitle d;
     errorMessage := errorMessage d; quotaValue := x |}.

Definition set_classes (cl : classList) (e : element) : element :=
  {| classes := cl; textContent := textContent e |}.

Definition set_textContent (t : jsstring) (e : element) : element :=
  {| classes := classes e; textContent := t |}.

Definition set_isLoading (b : bool) (s : state) : state :=
  {| isLoading := b; doc := doc s; timers := timers s; calls := calls s;
     researchInFlight := researchInFlight s; quotaInFlight := quotaInFlight s;
     console := console s; effects := effects s |}.

Definition set_doc (d : document) (s : state) : state :=
  {| isLoading := isLoading s; doc := d; timers := timers s; calls := calls s;
     researchInFlight := researchInFlight s; quotaInFlight := quotaInFlight s;
     console := console s; effects := effects s |}.

Definition set_timers (t : list (callback * N)) (s : state) : state :=
  {| isLoading := isLoading s; doc := doc s; timers := t; calls := calls s;
     researchInFlight := researchInFlight s; quotaInFlight := quotaInFlight s;
     console := console s; effects := effects s |}.

Definition set_network (c : list request) (r q : nat) (s : state) : state :=
  {| isLoading := isLoading s; doc := doc s; timers := timers s; calls := c;
     researchInFlight := r; quotaInFlight := q;
     console := console s; effects := effects s |}.

Definition set_console (c : list jsstring) (s : state) : state :=
  {| isLoading := isLoading s; doc := doc s; timers := timers s; calls := calls s;
     researchInFlight := researchInFlight s; quotaInFlight := quotaInFlight s;
     console := c; effects := effects s |}.

Definition set_effects (e : list effect) (s : state) : state :=
  {| isLoading := isLoading s; doc := doc s; timers := timers s; calls := calls s;
     researchInFlight := researchInFlight s; quotaInFlight := quotaInFlight s;
     console := console s; effects := e |}.

(** An assignment inside the document. *)
Definition on_doc (f : document -> document) (s : state) : state :=
  set_doc (f (doc s)) s.

(** An assignment to the [style.display] of a section. *)
Definition on_views (f : sections -> sections) (s : state) : state :=
  on_doc (fun d => set_views (f (views d)) d) s.

(** [setTimeout(cb, delay)]. *)
Definition setTimeout (cb : callback) (delay : N) (s : state) : state :=
  set_timers (timers s ++ [(cb, delay)]) s.

(** [fetch(...)] up to the await: the call is issued and its caller is
    suspended. *)
Definition fetch (r : request) (s : state) : state :=
  match r with
  | GetQuota =>
    set_network (calls s ++ [r]) (researchInFlight s) (S (quotaInFlight s)) s
  | PostResearch _ =>
    set_network (calls s ++ [r]) (S (researchInFlight s)) (quotaInFlight s) s
  end.

Definition console_error (msg : jsstring) (s : state) : state :=
  set_console (console s ++ [msg]) s.

Definition perform (e : effect) (s : state) : state :=
  set_effects (effects s ++ [e]) s.

(** *** Statements that may throw *)

(** A run of statements from a state: the state it leaves, and whether it
    ended normally or by an exception. *)
Definition action (A : Type) : Type := state -> completion A * state.

#[local] Instance action_ret : MRet action :=
  fun A a s => (Return a, s).

#[local] Instance action_bind : MBind action :=
  fun A B f m s =>
    match m s with
    | (Return a, s') => f a s'
    | (Throw, s') => (Throw, s')
    end.

(** A statement that only changes the state. *)
Definition exec (f : state -> state) : action unit :=
  fun s => (Return tt, f s).

(** An expression that may throw and changes nothing. *)
Definition eval {A} (c : completion A) : action A :=
  fun s => (c, s).

(** [try { body } catch (e) { handler }]. *)
Definition try_catch (body handler : action unit) : action unit :=
  fun s =>
    match body s with
    | (Return _, s') => (Return tt, s')
    | (Throw, s') => handler s'
    end.

(** [try { body } finally { cleanup }]. *)
Definition try_finally (body cleanup : action unit) : action unit :=
  fun s =>
    match body s with
    | (r, s') =>
      match cleanup s' with
      | (Return _, s'') => (r, s'')
      | (Throw, s'') => (Throw, s'')
      end
    end.

(** The state an asynchronous function leaves when it returns; an exception
    that escapes it rejects its promise, which no caller of the script
    observes. *)
Definition settle (a : action unit) (s : state) : state := snd (a s).

(** [await fetch(...)] and [await res.json()], given how the call ends. *)
Definition await (o : outcome) : action (bool * value) :=
  match o with
  | FetchThrows => eval Throw
  | Response ok None => eval Throw
  | Response ok (Some data) => eval (Return (ok, data))
  end.

(* ===================================================================== *)
(** ** The script *)
(* ===================================================================== *)

(** Every element the script looks up ([getElementById], [querySelector])
    is taken to be in the page, which is not part of the sources; [steps]
    holds the four elements [step1] .. [step4]. *)

Section Controller.

(** The global [marked] of the markdown library, when the page loaded it:
    [marked.parse], which may throw. *)
Variable marked : option (value -> completion jsstring).

(** *** Navigation *)

Definition hideAll (s : state) : state :=
  let s := on_views (set_heroSection none) s in
  let s := on_views (set_loadingSection none) s in
  let s := on_views (set_errorSection none) s in
  on_views (set_reportSection none) s.

Definition resetToSearch (s : state) : state :=
  let s := hideAll s in
  let s := on_views (set_heroSection block) s in
  let s := on_doc (set_tickerInput (js "")) s in
  let s := perform FocusInput s in
  perform ScrollToTop s.

(** *** Utils *)

Definition shakeInput (s : state) : state :=
  let s := on_doc (set_searchBoxAnimation (js "shake 0.4s ease")) s in
  setTimeout ShakeTimer 400 s.

(** The callback of [shakeInput]'s timer. *)
Definition shakeTimer (s : state) : state :=
  on_doc (set_searchBoxAnimation (js "")) s.

(** *** Error display *)

Definition showError (title message : value) : action unit :=
  exec hideAll;;
  exec (on_views (set_errorSection block));;
  title ← eval (text_of title);
  exec (on_doc (set_errorTitle title));;
  message ← eval (text_of message);
  exec (on_doc (set_errorMessage message)).

(** *** Loading animation *)

Definition delays : list N := [0; 3000; 8000; 15000].

(** [steps[j]] of the document gets [f] applied. *)
Definition on_step (j : nat) (f : element -> element) (s : state) : state :=
  on_doc (fun d => set_steps (alter f j (steps d)) d) s.

(** The body of the [for] loop of a step timer, for one earlier step. *)
Definition mark_done (e : element) : element :=
  let e := set_classes (classList_remove [js "active"] (classes e)) e in
  let e := set_classes (classList_add (js "done") (classes e)) e in
  set_textContent (js "✅ " ++ replace (js "✅ ") (js "") (textContent e)) e.

(** The callback of the timer of step [i]. *)
Definition stepTimer (i : nat) (s : state) : state :=
  if negb (isLoading s) then s
  else
    let s := fold_left (fun s j => on_step j mark_done s) (seq 0 i) s in
    on_step i (fun el => set_classes (classList_add (js "active") (classes el)) el) s.

Definition showLoading (ticker : jsstring) (s : state) : state :=
  let s := hideAll s in
  let s := on_views (set_loadingSection block) s in
  let s := on_doc (set_loadingTicker ticker) s in
  fold_left
    (fun s '(i, delay) =>
       let s := on_step i (fun el =>
         set_classes (classList_remove [js "active"; js "done"] (classes el)) el) s in
       setTimeout (StepTimer i) delay s)
    (zip (seq 0 4) delays) s.

(** *** Report display *)

Definition on_report (f : reportView -> reportView) (s : state) : state :=
  on_doc (fun d => set_report (f (report d)) d) s.

Definition showReport (data : value) : action unit :=
  exec hideAll;;
  exec (on_views (set_reportSection block));;
  ticker ← eval (get_prop data (js "ticker"));
  ticker ← eval (text_of ticker);
  exec (on_report (fun r =>
    {| reportTicker := ticker; reportName := reportName r;
       reportBadgeText := reportBadgeText r;
       reportBadgeClass := reportBadgeClass r;
       reportContent := reportContent r |}));;
  name ← eval (get_prop data (js "name"));
  name ← eval (text_of (or_else name (VStr (js ""))));
  exec (on_report (fun r =>
    {| reportTicker := reportTicker r;
       reportName := name;
       reportBadgeText := reportBadgeText r;
       reportBadgeClass := reportBadgeClass r;
       reportContent := reportContent r |}));;
  cached ← eval (get_prop data (js "cached"));
  exec (on_report (fun r =>
    {| reportTicker := reportTicker r; reportName := reportName r;
       reportBadgeText :=
         if truthy cached then js "📦 快取" else js "✨ 即時生成";
       reportBadgeClass :=
         if truthy cached then js "report-badge cached"
         else js "report-badge fresh";
       reportContent := reportContent r |}));;
  content ← eval (get_prop data (js "content"));
  html ← match marked with
         | Some parse => eval (parse (or_else content (VStr (js ""))))
         | None =>
           text ← eval (toString (or_else content (VStr (js ""))));
           mret (js "<pre>" ++ text ++ js "</pre>")
         end;
  exec (on_report (fun r =>
    {| reportTicker := reportTicker r; reportName := reportName r;
       reportBadgeText := reportBadgeText r;
       reportBadgeClass := reportBadgeClass r;
       reportContent := html |}));;
  exec (perform ScrollReportIntoView).

(** *** Quota *)

Definition on_quotaValue (f : element -> element) (s : state) : state :=
  on_doc (fun d => set_quotaValue (f (quotaValue d)) d) s.

(** [updateQuota()] up to its first await. *)
Definition updateQuota (s : state) : state := fetch GetQuota s.

(** The rest of [updateQuota], once the call has ended with [o]. *)
Definition updateQuota_resume (o : outcome) : state -> state :=
  settle (try_catch
    ('(_, data) ← await o;
     remaining ← eval (get_prop data (js "remaining"));
     remaining ← eval (toString remaining);
     total ← eval (get_prop data (js "total"));
     total ← eval (toString total);
     exec (on_quotaValue (set_textContent (remaining ++ js "/" ++ total)));;
     exec (on_quotaValue (fun el =>
       set_classes (classList_remove [js "warning"; js "empty"] (classes el)) el));;
     remaining ← eval (get_prop data (js "remaining"));
     if strict_eq_num remaining 0 then
       exec (on_quotaValue (fun el =>
         set_classes (classList_add (js "empty") (classes el)) el))
     else
       remaining ← eval (get_prop data (js "remaining"));
       if strict_eq_num remaining 1 then
         exec (on_quotaValue (fun el =>
           set_classes (classList_add (js "warning") (classes el)) el))
       else mret tt)
    (exec (console_error (js "Quota check failed:")))).

(** *** Submitting a ticker *)

(** [handleSearch()] up to its first await. *)
Definition handleSearch (s : state) : state :=
  if isLoading s then s
  else
    let ticker := trim (tickerInput (doc s)) in
    match ticker with
    | [] => shakeInput s
    | _ :: _ =>
      let s := set_isLoading true s in
      let s := showLoading ticker s in
      fetch (PostResearch ticker) s
    end.

(** The rest of [handleSearch], once the call has ended with [o]. *)
Definition handleSearch_resume (o : outcome) : state -> state :=
  settle (try_finally
    (try_catch
       ('(ok, data) ← await o;
        if negb ok then
          error ← eval (get_prop data (js "error"));
          message ← eval (get_prop data (js "message"));
          showError (or_else error (VStr (js "未知錯誤")))
                    (or_else message (VStr (js "")))
        else
          showReport data)
       (showError (VStr (js "網路連線失敗"))
                  (VStr (js "請確認伺服器是否運行中"))))
    (exec (set_isLoading false);;
     exec updateQuota)).

Definition quickSearch (ticker : jsstring) (s : state) : state :=
  let s := on_doc (set_tickerInput (strip_newlines ticker)) s in
  handleSearch s.

(** *** Init *)

(** The [DOMContentLoaded] listener; the [keydown] listener it installs
    calls [handleSearch] on Enter. *)
Definition domContentLoaded (s : state) : state :=
  let s := updateQuota s in
  perform FocusInput s.

(* ===================================================================== *)
(** ** Runs of the page *)
(* ===================================================================== *)

(** What can happen to the page: the user edits the input, a handler is
    called, a pending call ends, a pending timer fires.  Each event runs
    to completion before the next one.  Pending timers may fire in any
    order: the delays are kept, the clock is not modelled. *)
Inductive event :=
| PageLoaded                          (* DOMContentLoaded *)
| Typed (text : jsstring)             (* an edit leaves text in tickerInput *)
| Submit                              (* handleSearch() *)
| QuickSelect (ticker : jsstring)     (* quickSearch(ticker) *)
| ResetToSearch                       (* resetToSearch() *)
| RefreshQuota                        (* updateQuota() *)
| ResearchSettled (o : outcome)       (* the research call ends *)
| QuotaSettled (o : outcome)          (* a quota call ends *)
| TimerFired (k : nat).               (* the k-th pending timer fires *)

Definition run_callback (cb : callback) (s : state) : state :=
  match cb with
  | StepTimer i => stepTimer i s
  | ShakeTimer => shakeTimer s
  end.

(** One event; [None] when the event cannot happen in [s]. *)
Definition step (e : event) (s : state) : option state :=
  match e with
  | PageLoaded => Some (domContentLoaded s)
  | Typed text => Some (on_doc (set_tickerInput text) s)
  | Submit => Some (handleSearch s)
  | QuickSelect ticker => Some (quickSearch ticker s)
  | ResetToSearch => Some (resetToSearch s)
  | RefreshQuota => Some (updateQuota s)
  | ResearchSettled o =>
    match researchInFlight s with
    | O => None
    | S n =>
      Some (handleSearch_resume o
              (set_network (calls s) n (quotaInFlight s) s))
    end
  | QuotaSettled o =>
    match quotaInFlight s with
    | O => None
    | S n =>
      Some (updateQuota_resume o
              (set_network (calls s) (researchInFlight s) n s))
    end
  | TimerFired k =>
    match timers s !! k with
    | None => None
    | Some (cb, _) => Some (run_callback cb (set_timers (delete k (timers s)) s))
    end
  end.

Fixpoint run (es : list event) (s : state) : option state :=
  match es with
  | [] => Some s
  | e :: es' =>
    match step e s with
    | None => None
    | Some s' => run es' s'
    end
  end.

End Controller.

(* ===================================================================== *)
(** ** Properties of the page *)
(* ===================================================================== *)

(** The number of sections that are shown. *)
Definition visible_count (s : state) : nat :=
  let v := views (doc s) in
  (Nat.b2n (visible (heroSection v)) + Nat.b2n (visible (loadingSection v))
   + Nat.b2n (visible (errorSection v)) + Nat.b2n (visible (reportSection v)))%nat.

(** The four sections with exactly one of them shown. *)
Definition only_hero : sections :=
  {| heroSection := block; loadingSection := none;
     errorSection := none; reportSection := none |}.

Definition only_loading : sections :=
  {| heroSection := none; loadingSection := block;
     errorSection := none; reportSection := none |}.

Definition only_error : sections :=
  {| heroSection := none; loadingSection := none;
     errorSection := block; reportSection := none |}.

Definition only_report : sections :=
  {| heroSection := none; loadingSection := none;
     errorSection := none; reportSection := block |}.

(** A page to run the script on.  The markup is not among the sources: the
    texts and classes here are placeholders. *)
Definition sample_page : state :=
  {| isLoading := false;
     doc :=
       {| tickerInput := js "";
          searchBoxAnimation := js "";
          views := only_hero;
          loadingTicker := js "";
          steps :=
            [ {| classes := [js "step"]; textContent := js "one" |};
              {| classes := [js "step"]; textContent := js "two" |};
              {| classes := [js "step"]; textContent := js "three" |};
              {| classes := [js "step"]; textContent := js "four" |} ];
          report :=
            {| reportTicker := js ""; reportName := js "";
               reportBadgeText := js ""; reportBadgeClass := js "report-badge";
               reportContent := js "" |};
          errorTitle := js "";
          errorMessage := js "";
          quotaValue := {| classes := [js "quota-value"]; textContent := js "-/-" |} |};
     timers := [];
     calls := [];
     researchInFlight := 0;
     quotaInFlight := 0;
     console := [];
     effects := [] |}.

(** The call could not complete: [fetch] or [res.json()] throws. *)
Definition throws (o : outcome) : bool :=
  match o with
  | FetchThrows => true
  | Response _ None => true
  | Response _ (Some _) => false
  end.

(** The sample page once "2330" has been typed and submitted. *)
Definition loading_page : state :=
  handleSearch (on_doc (set_tickerInput (js "2330")) sample_page).

(** Bodies of responses. *)
Definition quota_exceeded : value :=
  VObj [(js "error", VStr (js "Quota exceeded"));
        (js "message", VStr (js "Try tomorrow"))].

Definition empty_error : value :=
  VObj [(js "error", VStr (js "")); (js "message", VStr (js "Try tomorrow"))].

Definition one_of_five : value :=
  VObj [(js "remaining", VNum 1); (js "total", VNum 5)].

Definition cached_report : value :=
  VObj [(js "ticker", VStr (js "AAPL")); (js "cached", VBool true);
        (js "content", VStr (js "# Report"))].

(** What the [try] block of [updateQuota] does to [quotaValue] once it has
    the text to show and [remaining] off the body. *)
Definition quota_shown (text : jsstring) (remaining : value) (el : element) :
    element :=
  let el := set_textContent text el in
  let el := set_classes (classList_remove [js "warning"; js "empty"] (classes el)) el in
  if strict_eq_num remaining 0 then
    set_classes (classList_add (js "empty") (classes el)) el
  else if strict_eq_num remaining 1 then
    set_classes (classList_add (js "warning") (classes el)) el
  else el.


(** The sample page once that request has been answered with a report: the
    four timers of the animation are still pending. *)
Definition settled_page : state :=
  default sample_page
    (run None [Typed (js "2330"); Submit;
               ResearchSettled (Response true (Some cached_report))]
       sample_page).

(** The flag and the research calls in flight agree: one call while
    [isLoading] is set, none otherwise. *)
Definition flag_matches_request (s : state) : Prop :=
  researchInFlight s = (if isLoading s then 1 else 0)%nat.


(** How many of the calls are for the quota, and how many for a report. *)
Fixpoint quota_calls (l : list request) : nat :=
  match l with
  | [] => 0
  | GetQuota :: l' => S (quota_calls l')
  | PostResearch _ :: l' => quota_calls l'
  end.

Fixpoint research_calls (l : list request) : nat :=
  match l with
  | [] => 0
  | GetQuota :: l' => research_calls l'
  | PostResearch _ :: l' => S (research_calls l')
  end.

(** How many of the events call [updateQuota], and how many are the end of
    a research call. *)
Fixpoint quota_triggers (es : list event) : nat :=
  match es with
  | [] => 0
  | (PageLoaded | RefreshQuota | ResearchSettled _) :: es' => S (quota_triggers es')
  | _ :: es' => quota_triggers es'
  end.

Fixpoint research_settles (es : list event) : nat :=
  match es with
  | [] => 0
  | ResearchSettled _ :: es' => S (research_settles es')
  | _ :: es' => research_settles es'
  end.

(** What [classList.remove('active', 'done')] of [showLoading] leaves of a
    step element. *)
Definition clear_step (el : element) : element :=
  set_classes (classList_remove [js "active"; js "done"] (classes el)) el.

(** What [classList.add('active')] of a step timer leaves of its element. *)
Definition activate (el : element) : element :=
  set_classes (classList_add (js "active") (classes el)) el.

(* ===================================================================== *)
(** ** Checks of the embedding on concrete inputs *)
(* ===================================================================== *)

Example js_ascii : js "a b/0" = [0x61; 0x20; 0x62; 0x2F; 0x30].
Proof. reflexivity. Qed.

Example js_check_mark : js "✅ " = [0x2705; 0x20].
Proof. reflexivity. Qed.

Example js_package : js "📦 快取" = [0xD83D; 0xDCE6; 0x20; 0x5FEB; 0x53D6].
Proof. reflexivity. Qed.

Example trim_example : trim (js "  2330 ") = js "2330".
Proof. reflexivity. Qed.

Example replace_first_only :
  replace (js "ab") (js "") (js "xabyab") = js "xyab".
Proof. reflexivity. Qed.

Example decimal_examples :
  decimal 0 = js "0" /\ decimal 5 = js "5" /\ decimal 120 = js "120"
  /\ decimal (-7) = js "-7"
  /\ decimal 9007199254740991 = js "9007199254740991".
Proof. repeat split; reflexivity. Qed.

Example toString_array :
  toString (VArr [VNum 1; VNull; VStr (js "a"); VArr [VBool true; VNum 2]])
  = Return (js "1,,a,true,2").
Proof. reflexivity. Qed.

Example toString_own_toString :
  toString (VObj [(js "toString", VNum 1)]) = Throw
  /\ toString (VArr [VNum 1; VObj [(js "toString", VNull)]]) = Throw
  /\ toString (VObj [(js "valueOf", VNum 1)]) = Return (js "[object Object]").
Proof. repeat split. Qed.

Example Number_toString_examples :
  Number_toString 9007199254740993 = js "9007199254740992"
  /\ Number_toString 18446744073709551616 = js "18446744073709552000"
  /\ Number_toString 123456789012345678901 = js "123456789012345680000"
  /\ Number_toString 1000000000000000000000 = js "1e+21"
  /\ Number_toString 1180591620717411303424 = js "1.1805916207174113e+21"
  /\ Number_toString (-100000000000000000000000) = js "-1e+23"
  /\ Number_toString (10 ^ 400) = js "Infinity".
Proof. repeat split; vm_compute; reflexivity. Qed.

Example strip_newlines_example :
  strip_newlines [0x32; 0x33; 0x0A; 0x33; 0x0D; 0x30] = js "2330".
Proof. reflexivity. Qed.

(* ===================================================================== *)
(** ** Frames: what a handler leaves alone *)
(* ===================================================================== *)

(** Unfolds the statements of the two resumed functions down to the
    assignments they make. *)
Ltac run_script :=
  cbv [handleSearch_resume updateQuota_resume showReport showError settle
       try_finally try_catch await eval exec mbind mret action_bind action_ret
       get_prop].

(** Splits on whether each conversion to a string throws. *)
Ltac case_conversions :=
  repeat match goal with
         | |- context [text_of ?v] => destruct (text_of v)
         | |- context [toString ?v] => destruct (toString v)
         end.

(** Splits on what [marked.parse] does, when the page has it. *)
Ltac case_parse :=
  match goal with
  | p : value -> completion jsstring |- _ => destruct (p _)
  end.

(** All the ways [handleSearch_resume] can go. *)
Ltac resume_cases marked o :=
  run_script;
  destruct o as [|[|] [[| | | | | |]|]];
  case_conversions;
  try (destruct marked; [case_parse|]);
  case_conversions.

Lemma on_doc_steps_same (s : state) : on_doc (set_steps (steps (doc s))) s = s.
Proof. destruct s as [l d t c r q co ef]; destruct d; reflexivity. Qed.

(** A loop over step elements changes nothing but [steps]. *)
Lemma fold_on_step_frame (f : element -> element) (l : list nat) (s : state) :
  exists st, fold_left (fun s j => on_step j f s) l s = on_doc (set_steps st) s.
Proof.
  revert s; induction l as [|j l IH]; intros s; simpl.
  - exists (steps (doc s)). symmetry; apply on_doc_steps_same.
  - destruct (IH (on_step j f s)) as [st Hst]. exists st. rewrite Hst. reflexivity.
Qed.

Lemma stepTimer_frame (i : nat) (s : state) :
  exists st, stepTimer i s = on_doc (set_steps st) s.
Proof.
  unfold stepTimer. destruct (isLoading s); simpl.
  - destruct (fold_on_step_frame mark_done (seq 0 i) s) as [st Hst].
    rewrite Hst. eexists. reflexivity.
  - exists (steps (doc s)). symmetry; apply on_doc_steps_same.
Qed.

Lemma run_callback_views (cb : callback) (s : state) :
  views (doc (run_callback cb s)) = views (doc s).
Proof.
  destruct cb as [i|]; simpl; [|reflexivity].
  destruct (stepTimer_frame i s) as [st ->]. reflexivity.
Qed.

Lemma updateQuota_resume_views (o : outcome) (s : state) :
  views (doc (updateQuota_resume o s)) = views (doc s).
Proof.
  run_script. destruct o as [|ok [data|]]; try reflexivity.
  destruct data; try reflexivity; case_conversions; try reflexivity;
    repeat match goal with |- context [strict_eq_num ?v ?n] =>
      destruct (strict_eq_num v n) end; reflexivity.
Qed.

Lemma handleSearch_views (s : state) :
  views (doc (handleSearch s)) = views (doc s)
  \/ views (doc (handleSearch s)) = only_loading.
Proof.
  unfold handleSearch. destruct (isLoading s); [left; reflexivity|].
  destruct (trim (tickerInput (doc s))); [left|right]; reflexivity.
Qed.

Lemma handleSearch_resume_views marked (o : outcome) (s : state) :
  views (doc (handleSearch_resume marked o s)) = only_error
  \/ views (doc (handleSearch_resume marked o s)) = only_report.
Proof.
  resume_cases marked o; first [left; reflexivity | right; reflexivity].
Qed.

(** Every event leaves the four sections as they are, or leaves exactly one
    of them shown: the handlers that touch them call [hideAll] and then show
    one. *)
Lemma step_views marked (e : event) (s s' : state) :
  step marked e s = Some s' ->
  views (doc s') = views (doc s)
  \/ views (doc s') = only_hero \/ views (doc s') = only_loading
  \/ views (doc s') = only_error \/ views (doc s') = only_report.
Proof.
  destruct e as [|text| |ticker| | |o|o|k]; simpl; intros H.
  - injection H as <-. left; reflexivity.
  - injection H as <-. left; reflexivity.
  - injection H as <-. destruct (handleSearch_views s) as [E|E]; rewrite E; auto.
  - injection H as <-. unfold quickSearch.
    destruct (handleSearch_views
                (on_doc (set_tickerInput (strip_newlines ticker)) s)) as [E|E];
      rewrite E; auto.
  - injection H as <-. right; left; reflexivity.
  - injection H as <-. left; reflexivity.
  - destruct (researchInFlight s) as [|n]; [discriminate|]. injection H as <-.
    destruct (handleSearch_resume_views marked o
                (set_network (calls s) n (quotaInFlight s) s)) as [E|E];
      rewrite E; auto.
  - destruct (quotaInFlight s) as [|n]; [discriminate|]. injection H as <-.
    left. rewrite updateQuota_resume_views. reflexivity.
  - destruct (timers s !! k) as [[cb d]|]; [|discriminate]. injection H as <-.
    left. rewrite run_callback_views. reflexivity.
Qed.

(* ===================================================================== *)
(** ** The views *)
(* ===================================================================== *)

(** C1.  Whatever the user does and however the calls and timers end, at
    most one of the hero, loading, error and report sections is shown after
    each event, when at most one was shown to begin with: an event either
    leaves the sections alone or hides all four and shows one. *)
Theorem one_view_at_most marked (es : list event) (s0 s : state) :
  (visible_count s0 <= 1)%nat ->
  run marked es s0 = Some s ->
  (visible_count s <= 1)%nat.
Proof.
  revert s0; induction es as [|e es IH]; simpl; intros s0 H0 Hrun.
  - injection Hrun as <-. exact H0.
  - destruct (step marked e s0) as [s1|] eqn:Hstep; [|discriminate].
    apply (IH s1); [|exact Hrun].
    unfold visible_count in *.
    destruct (step_views marked e s0 s1 Hstep) as [E|[E|[E|[E|E]]]];
      rewrite E; simpl; auto; lia.
Qed.

Example sample_run :
  option_map (fun s => (isLoading s, views (doc s), calls s))
    (run None [PageLoaded; Typed (js " 2330 "); Submit; TimerFired 0;
               ResearchSettled (Response true (Some cached_report)); ResetToSearch]
       sample_page)
  = Some (false, only_hero, [GetQuota; PostResearch (js "2330"); GetQuota]).
Proof. reflexivity. Qed.

Lemma one_view_at_most_witness :
  (visible_count sample_page <= 1)%nat
  /\ exists s,
       run None [PageLoaded; Typed (js " 2330 "); Submit; TimerFired 0;
                 ResearchSettled (Response true (Some cached_report))]
         sample_page = Some s
       /\ (visible_count s <= 1)%nat.
Proof.
  split; [vm_compute; lia|].
  eexists; split; [vm_compute; reflexivity|].
  apply (one_view_at_most None
           [PageLoaded; Typed (js " 2330 "); Submit; TimerFired 0;
            ResearchSettled (Response true (Some cached_report))]
           sample_page);
    [vm_compute; lia | vm_compute; reflexivity].
Defined.

(* ===================================================================== *)
(** ** Submitting *)
(* ===================================================================== *)

(** C2.  While [isLoading] is set, [handleSearch] returns at once, whatever
    the input holds: the state it leaves is the state it found, with the
    same calls issued, the same sections shown and the same timers. *)
Theorem busy_submit_is_noop (s : state) :
  isLoading s = true -> handleSearch s = s.
Proof. intros H. unfold handleSearch. rewrite H. reflexivity. Qed.

Lemma busy_submit_is_noop_witness :
  isLoading loading_page = true /\ handleSearch loading_page = loading_page.
Proof. split; [reflexivity | apply busy_submit_is_noop; reflexivity]. Defined.

(** C3.  When a research call in flight ends, in whichever way, the rest of
    [handleSearch] runs, clears [isLoading] and issues one call for the
    quota, and no other call. *)
Theorem settled_submit_clears_flag marked (o : outcome) (s : state) :
  researchInFlight s <> 0%nat ->
  exists s',
    step marked (ResearchSettled o) s = Some s'
    /\ isLoading s' = false
    /\ calls s' = calls s ++ [GetQuota]
    /\ quotaInFlight s' = S (quotaInFlight s).
Proof.
  intros H. simpl. destruct (researchInFlight s) as [|n]; [congruence|].
  eexists; split; [reflexivity|].
  resume_cases marked o; repeat split; reflexivity.
Qed.

Lemma settled_submit_clears_flag_witness :
  researchInFlight loading_page <> 0%nat
  /\ exists s',
       step None (ResearchSettled (Response false (Some quota_exceeded)))
         loading_page = Some s'
       /\ isLoading s' = false
       /\ calls s' = calls loading_page ++ [GetQuota]
       /\ quotaInFlight s' = S (quotaInFlight loading_page).
Proof.
  split; [vm_compute; discriminate|].
  apply settled_submit_clears_flag. vm_compute; discriminate.
Defined.

(** [showError] inside the [try] of [handleSearch]: the texts it was given
    when both convert, and those of the [catch] clause when one does not. *)
Lemma showError_caught (title message : value) (a b : jsstring) (s : state) :
  let s' := snd (try_catch (showError title message)
                   (showError (VStr a) (VStr b)) s) in
  views (doc s') = only_error
  /\ isLoading s' = isLoading s
  /\ calls s' = calls s
  /\ errorTitle (doc s')
     = match text_of title, text_of message with
       | Return t, Return _ => t
       | _, _ => a
       end
  /\ errorMessage (doc s')
     = match text_of title, text_of message with
       | Return _, Return m => m
       | _, _ => b
       end.
Proof.
  cbv [showError try_catch eval exec mbind mret action_bind action_ret].
  destruct (text_of title), (text_of message); repeat split.
Qed.

(** What a rejection with a body that can be read comes to. *)
Lemma resume_rejected marked (data error message : value) (s : state) :
  get_prop data (js "error") = Return error ->
  get_prop data (js "message") = Return message ->
  handleSearch_resume marked (Response false (Some data)) s
  = updateQuota (set_isLoading false
      (snd (try_catch
              (showError (or_else error (VStr (js "未知錯誤")))
                         (or_else message (VStr (js ""))))
              (showError (VStr (js "網路連線失敗"))
                         (VStr (js "請確認伺服器是否運行中")))
              s))).
Proof.
  intros He Hm.
  cbv [handleSearch_resume settle try_finally await eval exec mbind mret
       action_bind action_ret].
  cbv [try_catch mbind action_bind eval]. cbn [negb]. rewrite He, Hm.
  destruct (showError _ _ s) as [[|] s1]; [reflexivity|].
  destruct (showError _ _ s1) as [[|] s2]; reflexivity.
Qed.

(** C4, as the code has it.  A response that is not ok always ends in the
    error section.  When its body can be read, the title shown is the
    string of [error || '未知錯誤'] and the message the string of
    [message || ''], provided both convert to a string: so for a body of
    strings, the body's [error] unless it is empty, and the body's
    [message], or nothing if there is none.  When the body does not parse,
    is [null], or holds an [error] or [message] that does not convert, the
    title and message of a network failure are shown. *)
Theorem rejection_shows_error marked (body : option value) (s : state) :
  let s' := handleSearch_resume marked (Response false body) s in
  views (doc s') = only_error
  /\ (forall data error message title text,
        body = Some data ->
        get_prop data (js "error") = Return error ->
        get_prop data (js "message") = Return message ->
        text_of (or_else error (VStr (js "未知錯誤"))) = Return title ->
        text_of (or_else message (VStr (js ""))) = Return text ->
        errorTitle (doc s') = title /\ errorMessage (doc s') = text)
  /\ (forall props e m,
        body = Some (VObj props) ->
        lookup_prop (js "error") props = VStr e ->
        lookup_prop (js "message") props = VStr m
        \/ (lookup_prop (js "message") props = VUndefined /\ m = []) ->
        errorTitle (doc s') = match e with [] => js "未知錯誤" | _ :: _ => e end
        /\ errorMessage (doc s') = m)
  /\ (body = None \/ body = Some VNull \/ body = Some VUndefined
      \/ (exists data error message,
            body = Some data
            /\ get_prop data (js "error") = Return error
            /\ get_prop data (js "message") = Return message
            /\ (text_of (or_else error (VStr (js "未知錯誤"))) = Throw
                \/ text_of (or_else message (VStr (js ""))) = Throw)) ->
      errorTitle (doc s') = js "網路連線失敗"
      /\ errorMessage (doc s') = js "請確認伺服器是否運行中").
Proof.
  intros s'; subst s'.
  assert (Hread : forall data error message,
            body = Some data ->
            get_prop data (js "error") = Return error ->
            get_prop data (js "message") = Return message ->
            let s' := handleSearch_resume marked (Response false body) s in
            views (doc s') = only_error
            /\ errorTitle (doc s')
               = match text_of (or_else error (VStr (js "未知錯誤"))),
                       text_of (or_else message (VStr (js ""))) with
                 | Return t, Return _ => t
                 | _, _ => js "網路連線失敗"
                 end
            /\ errorMessage (doc s')
               = match text_of (or_else error (VStr (js "未知錯誤"))),
                       text_of (or_else message (VStr (js ""))) with
                 | Return _, Return m => m
                 | _, _ => js "請確認伺服器是否運行中"
                 end).
  { intros data error message -> He Hm. cbv zeta.
    rewrite (resume_rejected marked data error message s He Hm).
    match goal with |- context [try_catch (showError ?t ?m) (showError (VStr ?a) (VStr ?b)) s] =>
      destruct (showError_caught t m a b s) as (Hv & _ & _ & Ht & Hx) end.
    split; [exact Hv|]. split; [exact Ht | exact Hx]. }
  split; [|split; [|split]].
  - destruct body as [data|]; [|reflexivity].
    destruct (get_prop data (js "error")) as [error|] eqn:He.
    + destruct (get_prop data (js "message")) as [message|] eqn:Hm.
      * apply (Hread data error message eq_refl He Hm).
      * destruct data; try discriminate Hm; discriminate He.
    + destruct data; try discriminate He; reflexivity.
  - intros data error message title text Hb He Hm Ht Hx.
    destruct (Hread data error message Hb He Hm) as (_ & -> & ->).
    rewrite Ht, Hx. split; reflexivity.
  - intros props e m Hb He Hm.
    destruct (Hread (VObj props) (VStr e) (lookup_prop (js "message") props) Hb)
      as (_ & -> & ->); [simpl; rewrite He; reflexivity | reflexivity |].
    destruct e as [|c e], Hm as [-> | [-> ->]]; try destruct m; split; reflexivity.
  - intros [-> | [-> | [-> | (data & error & message & Hb & He & Hm & Hthrow)]]];
      try (split; reflexivity).
    destruct (Hread data error message Hb He Hm) as (_ & -> & ->).
    destruct Hthrow as [-> | ->];
      [|destruct (text_of (or_else error _))]; split; reflexivity.
Qed.

Lemma rejection_shows_error_witness :
  let s' := handleSearch_resume None (Response false (Some quota_exceeded))
              loading_page in
  views (doc s') = only_error
  /\ errorTitle (doc s') = js "Quota exceeded"
  /\ errorMessage (doc s') = js "Try tomorrow".
Proof.
  destruct (rejection_shows_error None (Some quota_exceeded) loading_page)
    as (Hv & _ & Hs & _).
  destruct (Hs _ (js "Quota exceeded") (js "Try tomorrow") eq_refl eq_refl
              (or_introl eq_refl)) as [Ht Hm].
  split; [exact Hv|]. split; [exact Ht | exact Hm].
Defined.

(** C4, as the claim has it, fails: a rejection whose body gives the empty
    string as [error] is shown with the fallback title, not with the title
    the server gave. *)
Lemma rejection_empty_title :
  let s' := handleSearch_resume None (Response false (Some empty_error))
              loading_page in
  get_prop empty_error (js "error") = Return (VStr (js ""))
  /\ errorTitle (doc s') = js "未知錯誤"
  /\ errorTitle (doc s') <> js "".
Proof. repeat split. discriminate. Qed.

(** C5.  When the research call throws, or its body does not parse, the
    error section is shown with the fixed title and message of the [catch]
    clause. *)
Theorem failure_shows_fixed_error marked (o : outcome) (s : state) :
  throws o = true ->
  let s' := handleSearch_resume marked o s in
  views (doc s') = only_error
  /\ errorTitle (doc s') = js "網路連線失敗"
  /\ errorMessage (doc s') = js "請確認伺服器是否運行中".
Proof.
  intros H s'; subst s'. destruct o as [|ok [data|]]; [|discriminate|];
    repeat split; reflexivity.
Qed.

Lemma failure_shows_fixed_error_witness :
  throws (Response true None) = true
  /\ let s' := handleSearch_resume None (Response true None) loading_page in
     views (doc s') = only_error
     /\ errorTitle (doc s') = js "網路連線失敗"
     /\ errorMessage (doc s') = js "請確認伺服器是否運行中".
Proof.
  split; [reflexivity|].
  apply failure_shows_fixed_error. reflexivity.
Defined.

(** The strings that [trim] empties are the ones made of white space. *)
Lemma trimStart_nil_iff (s : jsstring) :
  trimStart s = [] <-> forallb is_white_space s = true.
Proof.
  induction s as [|c s IH]; simpl; [tauto|].
  destruct (is_white_space c); simpl; [exact IH|].
  split; discriminate.
Qed.

Lemma trimStart_head (s : jsstring) :
  trimStart s = [] \/ exists c r, trimStart s = c :: r /\ is_white_space c = false.
Proof.
  induction s as [|c s IH]; simpl; [left; reflexivity|].
  destruct (is_white_space c) eqn:E; [exact IH|].
  right. exists c, s. split; [reflexivity | exact E].
Qed.

Lemma trim_nil_iff (s : jsstring) :
  trim s = [] <-> forallb is_white_space s = true.
Proof.
  rewrite <- trimStart_nil_iff. unfold trim, trimEnd. split.
  - intros H. destruct (trimStart_head s) as [E|(c & r & E & Hc)]; [exact E|].
    rewrite E in H. apply (f_equal (@rev N)) in H. rewrite rev_involutive in H.
    simpl in H. apply trimStart_nil_iff in H.
    rewrite forallb_app in H. simpl in H. rewrite Hc in H.
    rewrite andb_false_r in H. discriminate.
  - intros ->. reflexivity.
Qed.

(** C6.  When the input is empty once trimmed, [handleSearch] issues no
    call and starts no request: it does nothing if a request is in flight,
    and otherwise only shakes the search box, setting its animation and a
    timer of 400 ms whose callback clears the animation again.  Nothing else
    of the document changes. *)
Theorem empty_submit_only_shakes (s : state) :
  trim (tickerInput (doc s)) = [] ->
  let s' := handleSearch s in
  s' = (if isLoading s then s else shakeInput s)
  /\ calls s' = calls s
  /\ researchInFlight s' = researchInFlight s
  /\ quotaInFlight s' = quotaInFlight s
  /\ isLoading s' = isLoading s
  /\ set_searchBoxAnimation (searchBoxAnimation (doc s)) (doc s') = doc s
  /\ (isLoading s = false ->
      searchBoxAnimation (doc s') = js "shake 0.4s ease"
      /\ timers s' = timers s ++ [(ShakeTimer, 400)]
      /\ run_callback ShakeTimer s'
         = on_doc (set_searchBoxAnimation (js "")) s').
Proof.
  intros H s'; subst s'. unfold handleSearch. rewrite H.
  destruct s as [l d t c r q co ef]; destruct d; simpl.
  destruct l; repeat split; intros; discriminate.
Qed.

Lemma empty_submit_only_shakes_witness :
  let s := on_doc (set_tickerInput (js "   ")) sample_page in
  trim (tickerInput (doc s)) = []
  /\ calls (handleSearch s) = calls s
  /\ searchBoxAnimation (doc (handleSearch s)) = js "shake 0.4s ease".
Proof.
  intros s.
  destruct (empty_submit_only_shakes s) as (_ & Hc & _ & _ & _ & _ & Ht);
    [reflexivity|].
  split; [reflexivity|]. split; [exact Hc|].
  apply Ht. reflexivity.
Defined.

(* ===================================================================== *)
(** ** The quota *)
(* ===================================================================== *)

Lemma elem_of_classList_remove (t : jsstring) (ts : list jsstring) (cl : classList) :
  t ∈ classList_remove ts cl <-> t ∈ cl /\ t ∉ ts.
Proof. unfold classList_remove. rewrite list_elem_of_filter. tauto. Qed.

Lemma elem_of_classList_add (t a : jsstring) (cl : classList) :
  t ∈ classList_add a cl <-> t = a \/ t ∈ cl.
Proof.
  unfold classList_add. destruct (decide (a ∈ cl)) as [Ha|Ha].
  - split; [tauto|]. intros [->|H]; assumption.
  - rewrite elem_of_app, list_elem_of_singleton. tauto.
Qed.

Lemma warning_not_empty : js "warning" <> js "empty".
Proof. discriminate. Qed.

(** The rest of [updateQuota] on a body it can read: the update of
    [quotaValue] when both numbers convert to a string, and the [catch]
    clause when one does not. *)
Lemma updateQuota_resume_read (ok : bool) (data : value) (s : state) :
  data <> VNull -> data <> VUndefined ->
  exists remaining total,
    get_prop data (js "remaining") = Return remaining
    /\ get_prop data (js "total") = Return total
    /\ updateQuota_resume (Response ok (Some data)) s
       = match toString remaining, toString total with
         | Return r, Return t =>
           on_quotaValue (quota_shown (r ++ js "/" ++ t) remaining) s
         | _, _ => console_error (js "Quota check failed:") s
         end.
Proof.
  intros H1 H2.
  destruct data; try congruence; eexists _, _;
    (split; [reflexivity|]; split; [reflexivity|]);
    run_script; unfold quota_shown;
    case_conversions; try reflexivity;
    repeat match goal with |- context [strict_eq_num ?v ?n] =>
      destruct (strict_eq_num v n) end; reflexivity.
Qed.

Lemma Number_toString_safe (z : Z) :
  (Z.abs z < 2 ^ 53)%Z -> Number_toString z = decimal z.
Proof.
  intros H. unfold Number_toString.
  destruct (Z.ltb_spec (Z.abs z) (2 ^ 53)); [reflexivity | lia].
Qed.

Lemma quotaValue_on_quotaValue (f : element -> element) (s : state) :
  quotaValue (doc (on_quotaValue f s)) = f (quotaValue (doc s)).
Proof. reflexivity. Qed.

Lemma not_elem_of_warning_empty (c : jsstring) :
  c ∉ [js "warning"; js "empty"] <-> c <> js "warning" /\ c <> js "empty".
Proof. rewrite !not_elem_of_cons. pose proof (not_elem_of_nil c). tauto. Qed.

(** The classes of [quotaValue] after an update. *)
Lemma quota_shown_classes (text : jsstring) (remaining : value) (el : element)
    (c : jsstring) :
  c ∈ classes (quota_shown text remaining el) <->
  (c = js "empty" /\ strict_eq_num remaining 0 = true)
  \/ (c = js "warning" /\ strict_eq_num remaining 0 = false
      /\ strict_eq_num remaining 1 = true)
  \/ (c ∈ classes el /\ c <> js "warning" /\ c <> js "empty").
Proof.
  unfold quota_shown.
  destruct (strict_eq_num remaining 0); [|destruct (strict_eq_num remaining 1)];
    simpl; rewrite ?elem_of_classList_add, elem_of_classList_remove,
             not_elem_of_warning_empty;
    intuition congruence.
Qed.

(** C7.  A quota response with the numbers [remaining] and [total] sets the
    text of [quotaValue] to "remaining/total", gives it the class [empty]
    exactly when [remaining] is 0 and the class [warning] exactly when it is
    1, and leaves its other classes alone. *)
Theorem quota_display (ok : bool) (props : list (jsstring * value))
    (remaining total : Z) (s : state) :
  lookup_prop (js "remaining") props = VNum remaining ->
  lookup_prop (js "total") props = VNum total ->
  (0 <= remaining < 2 ^ 53)%Z ->
  (0 <= total < 2 ^ 53)%Z ->
  let s' := updateQuota_resume (Response ok (Some (VObj props))) s in
  let el := quotaValue (doc s) in
  let el' := quotaValue (doc s') in
  textContent el' = decimal remaining ++ js "/" ++ decimal total
  /\ (js "empty" ∈ classes el' <-> remaining = 0%Z)
  /\ (js "warning" ∈ classes el' <-> remaining = 1%Z)
  /\ (forall c, c <> js "empty" -> c <> js "warning" ->
        (c ∈ classes el' <-> c ∈ classes el)).
Proof.
  intros Hr Ht Hrange Htrange s' el el'; subst s' el el'.
  destruct (updateQuota_resume_read ok (VObj props) s)
    as (r & t & Er & Et & ->); [discriminate..|].
  simpl in Er, Et. rewrite Hr in Er. rewrite Ht in Et.
  injection Er as <-. injection Et as <-.
  cbn [toString]. rewrite !Number_toString_safe by lia.
  rewrite quotaValue_on_quotaValue.
  pose proof warning_not_empty as Hwe.
  split; [|split; [|split]].
  - unfold quota_shown; simpl.
    destruct (remaining =? 0)%Z; [|destruct (remaining =? 1)%Z]; reflexivity.
  - rewrite quota_shown_classes. simpl.
    destruct (Z.eqb_spec remaining 0); intuition congruence.
  - rewrite quota_shown_classes. simpl.
    destruct (Z.eqb_spec remaining 0), (Z.eqb_spec remaining 1);
      intuition (congruence || lia).
  - intros c Hce Hcw. rewrite quota_shown_classes. intuition congruence.
Qed.

Lemma quota_display_witness :
  let props := [(js "remaining", VNum 1); (js "total", VNum 5)] in
  let s' := updateQuota_resume (Response true (Some (VObj props))) sample_page in
  lookup_prop (js "remaining") props = VNum 1
  /\ lookup_prop (js "total") props = VNum 5
  /\ textContent (quotaValue (doc s')) = js "1/5"
  /\ js "warning" ∈ classes (quotaValue (doc s')).
Proof.
  intros props s'.
  destruct (quota_display true props 1 5 sample_page)
    as (Ht & _ & Hw & _); [reflexivity | reflexivity | lia | lia |].
  split; [reflexivity|]. split; [reflexivity|].
  split; [exact Ht | apply Hw; reflexivity].
Defined.

(** C8.  When the quota call throws, or its body does not parse, the rest of
    [updateQuota] only logs the failure: the document, and so the quota
    shown and the sections, the flag, the calls and the timers stay as they
    were. *)
Theorem quota_failure_only_logged (o : outcome) (s : state) :
  throws o = true ->
  let s' := updateQuota_resume o s in
  s' = console_error (js "Quota check failed:") s
  /\ doc s' = doc s
  /\ console s' = console s ++ [js "Quota check failed:"]
  /\ isLoading s' = isLoading s
  /\ calls s' = calls s.
Proof.
  intros H s'; subst s'.
  destruct o as [|ok [data|]]; [|discriminate|]; repeat split; reflexivity.
Qed.

Lemma quota_failure_only_logged_witness :
  throws FetchThrows = true
  /\ doc (updateQuota_resume FetchThrows sample_page) = doc sample_page
  /\ console (updateQuota_resume FetchThrows sample_page)
     = console sample_page ++ [js "Quota check failed:"].
Proof.
  split; [reflexivity|].
  destruct (quota_failure_only_logged FetchThrows sample_page)
    as (_ & Hd & Hc & _); [reflexivity|].
  split; [exact Hd | exact Hc].
Defined.

Lemma console_grows (msg : jsstring) (s : state) :
  console (console_error msg s) <> console s.
Proof.
  simpl. intros H. apply (f_equal length) in H.
  rewrite length_app in H. simpl in H. lia.
Qed.

(** C10.  After a quota update that did not fail (nothing was logged),
    [quotaValue] does not carry both [warning] and [empty]: both are removed
    and at most one of them is added again. *)
Theorem quota_classes_exclusive (o : outcome) (s : state) :
  let s' := updateQuota_resume o s in
  console s' = console s ->
  ~ (js "warning" ∈ classes (quotaValue (doc s'))
     /\ js "empty" ∈ classes (quotaValue (doc s'))).
Proof.
  intros s'; subst s'. intros Hlog.
  pose proof warning_not_empty as Hwe.
  assert (Hfail : updateQuota_resume o s = console_error (js "Quota check failed:") s
                  -> False).
  { intros E. rewrite E in Hlog. exact (console_grows _ _ Hlog). }
  destruct o as [|ok [data|]]; [exfalso; apply Hfail; reflexivity| |
                                exfalso; apply Hfail; reflexivity].
  assert (Hread : data <> VNull -> data <> VUndefined ->
            ~ (js "warning" ∈ classes (quotaValue (doc
                 (updateQuota_resume (Response ok (Some data)) s)))
               /\ js "empty" ∈ classes (quotaValue (doc
                 (updateQuota_resume (Response ok (Some data)) s))))).
  { intros Hn Hu.
    destruct (updateQuota_resume_read ok data s Hn Hu) as (r & t & _ & _ & E).
    destruct (toString r) as [tr|]; [destruct (toString t) as [tt|]|];
      [|exfalso; apply Hfail; exact E..].
    rewrite E, quotaValue_on_quotaValue, !quota_shown_classes.
    intuition congruence. }
  destruct data; first [apply Hread; discriminate
                       | exfalso; apply Hfail; reflexivity].
Qed.

Lemma quota_classes_exclusive_witness :
  let s' := updateQuota_resume (Response true (Some one_of_five)) sample_page in
  console s' = console sample_page
  /\ ~ (js "warning" ∈ classes (quotaValue (doc s'))
        /\ js "empty" ∈ classes (quotaValue (doc s'))).
Proof.
  split; [reflexivity|].
  apply (quota_classes_exclusive (Response true (Some one_of_five)) sample_page).
  reflexivity.
Defined.

(* ===================================================================== *)
(** ** The loading animation *)
(* ===================================================================== *)

Lemma stepTimer_idle (i : nat) (s : state) :
  isLoading s = false -> stepTimer i s = s.
Proof. intros H. unfold stepTimer. rewrite H. reflexivity. Qed.

(** C9.  The callback of each step timer reads [isLoading] first and
    returns when it is clear: a step timer that fires while the flag is
    clear changes nothing in the document, and leaves the flag clear. *)
Theorem settled_step_timer_idle marked (s : state) (k i : nat) (delay : N) :
  isLoading s = false ->
  timers s !! k = Some (StepTimer i, delay) ->
  stepTimer i s = s
  /\ exists s',
       step marked (TimerFired k) s = Some s'
       /\ doc s' = doc s
       /\ isLoading s' = false.
Proof.
  intros Hflag Hk. split; [apply stepTimer_idle; exact Hflag|].
  simpl. rewrite Hk. simpl. rewrite stepTimer_idle by exact Hflag.
  eexists; split; [reflexivity|]. split; [reflexivity | exact Hflag].
Qed.

Lemma settled_step_timer_idle_witness :
  isLoading settled_page = false
  /\ timers settled_page !! 1%nat = Some (StepTimer 1, 3000)
  /\ stepTimer 1 settled_page = settled_page.
Proof.
  split; [reflexivity|]. split; [reflexivity|].
  apply (settled_step_timer_idle None settled_page 1 1 3000); reflexivity.
Defined.

(** While the flag is set the same callback does write: the check is what
    keeps a settled request's timers quiet. *)
Example loading_step_timer_writes :
  steps (doc (stepTimer 1 loading_page)) <> steps (doc loading_page).
Proof. discriminate. Qed.

(** However many timers fire once the flag is clear, the step elements stay
    as they were and the flag stays clear. *)
Lemma timers_idle_once_settled marked (ks : list nat) (s s' : state) :
  isLoading s = false ->
  run marked (map TimerFired ks) s = Some s' ->
  isLoading s' = false
  /\ steps (doc s') = steps (doc s)
  /\ loadingTicker (doc s') = loadingTicker (doc s)
  /\ views (doc s') = views (doc s).
Proof.
  revert s; induction ks as [|k ks IH]; simpl; intros s Hflag Hrun.
  - injection Hrun as <-. auto.
  - destruct (timers s !! k) as [[[i|] d]|]; [| |discriminate]; simpl in Hrun.
    + rewrite stepTimer_idle in Hrun by exact Hflag.
      apply IH in Hrun; [|exact Hflag]. exact Hrun.
    + apply IH in Hrun; [|exact Hflag]. exact Hrun.
Qed.

(* ===================================================================== *)
(** ** The examples of the specification *)
(* ===================================================================== *)

Example report_example :
  let s' := handleSearch_resume None (Response true (Some cached_report))
              loading_page in
  views (doc s') = only_report
  /\ reportTicker (report (doc s')) = js "AAPL"
  /\ reportBadgeText (report (doc s')) = js "📦 快取"
  /\ reportContent (report (doc s')) = js "<pre># Report</pre>".
Proof. repeat split. Qed.

Example quota_examples :
  let shown r := classes (quotaValue (doc (updateQuota_resume
    (Response true (Some (VObj [(js "remaining", VNum r); (js "total", VNum 5)])))
    sample_page))) in
  shown 0%Z = [js "quota-value"; js "empty"]
  /\ shown 1%Z = [js "quota-value"; js "warning"]
  /\ shown 2%Z = [js "quota-value"].
Proof. repeat split. Qed.

(** An [error] that does not convert to a string throws inside the [try]:
    the message the server gave is not shown either. *)
Example unconvertible_error_rejection :
  let body := VObj [(js "error", VObj [(js "toString", VNum 1)]);
                    (js "message", VStr (js "Try tomorrow"))] in
  let s' := handleSearch_resume None (Response false (Some body)) loading_page in
  errorTitle (doc s') = js "網路連線失敗"
  /\ errorMessage (doc s') = js "請確認伺服器是否運行中".
Proof. split; reflexivity. Qed.

(** A body that is [null] is read inside the [try]: the rejection then ends
    in the [catch] clause. *)
Example null_body_rejection :
  errorTitle (doc (handleSearch_resume None (Response false (Some VNull))
                     loading_page))
  = js "網路連線失敗".
Proof. reflexivity. Qed.

(* ===================================================================== *)
(** ** What the handlers leave alone *)
(* ===================================================================== *)

(** The rest of [updateQuota] touches [quotaValue] and the console only. *)
Lemma updateQuota_resume_frame (o : outcome) (s : state) :
  exists q c,
    updateQuota_resume o s = set_console c (on_quotaValue (fun _ => q) s).
Proof.
  assert (Hid : forall c, set_console c s
                = set_console c (on_quotaValue (fun _ => quotaValue (doc s)) s)).
  { intros c. destruct s as [l d t ca r q co ef]; destruct d; reflexivity. }
  assert (Hread : forall ok data, data <> VNull -> data <> VUndefined ->
            exists q c, updateQuota_resume (Response ok (Some data)) s
                        = set_console c (on_quotaValue (fun _ => q) s)).
  { intros ok data Hn Hu.
    destruct (updateQuota_resume_read ok data s Hn Hu) as (r & t & _ & _ & ->).
    destruct (toString r) as [tr|]; [destruct (toString t) as [tt|]|];
      [|eexists _, _; apply Hid..].
    exists (quota_shown (tr ++ js "/" ++ tt) r (quotaValue (doc s))), (console s).
    destruct s; reflexivity. }
  destruct o as [|ok [data|]].
  - eexists _, _. apply Hid.
  - destruct data; first [apply Hread; discriminate | eexists _, _; apply Hid].
  - eexists _, _. apply Hid.
Qed.

(** The rest of [handleSearch] touches the document, the flag, the quota
    call and the effects. *)
Lemma handleSearch_resume_env marked (o : outcome) (s : state) :
  let s' := handleSearch_resume marked o s in
  isLoading s' = false
  /\ timers s' = timers s
  /\ calls s' = calls s ++ [GetQuota]
  /\ researchInFlight s' = researchInFlight s
  /\ quotaInFlight s' = S (quotaInFlight s)
  /\ console s' = console s.
Proof.
  intros s'; subst s'. resume_cases marked o; repeat split; reflexivity.
Qed.

(** [handleSearch] does nothing, shakes the box, or starts a request. *)
Lemma handleSearch_cases (s : state) :
  handleSearch s = s
  \/ handleSearch s = shakeInput s
  \/ (isLoading s = false
      /\ trim (tickerInput (doc s)) <> []
      /\ handleSearch s
         = fetch (PostResearch (trim (tickerInput (doc s))))
             (showLoading (trim (tickerInput (doc s))) (set_isLoading true s))).
Proof.
  unfold handleSearch. destruct (isLoading s); [left; reflexivity|].
  destruct (trim (tickerInput (doc s))) eqn:E; [right; left; reflexivity|].
  right; right. repeat split. discriminate.
Qed.

(* ===================================================================== *)
(** ** One request at a time *)
(* ===================================================================== *)

Lemma step_flag_matches marked (e : event) (s s' : state) :
  step marked e s = Some s' -> flag_matches_request s -> flag_matches_request s'.
Proof.
  unfold flag_matches_request.
  destruct e as [|text| |ticker| | |o|o|k]; simpl; intros H K.
  - injection H as <-. exact K.
  - injection H as <-. exact K.
  - injection H as <-.
    destruct (handleSearch_cases s) as [->|[->|(Hl & _ & ->)]]; try exact K.
    simpl. rewrite Hl in K. rewrite K. reflexivity.
  - injection H as <-. unfold quickSearch.
    destruct (handleSearch_cases
                (on_doc (set_tickerInput (strip_newlines ticker)) s))
      as [->|[->|(Hl & _ & ->)]]; try exact K.
    simpl in *. rewrite Hl in K. rewrite K. reflexivity.
  - injection H as <-. exact K.
  - injection H as <-. exact K.
  - destruct (researchInFlight s) as [|n] eqn:E; [discriminate|].
    injection H as <-.
    destruct (handleSearch_resume_env marked o
                (set_network (calls s) n (quotaInFlight s) s))
      as (-> & _ & _ & -> & _).
    simpl. destruct (isLoading s); congruence.
  - destruct (quotaInFlight s) as [|n]; [discriminate|]. injection H as <-.
    destruct (updateQuota_resume_frame o
                (set_network (calls s) (researchInFlight s) n s))
      as (q & c & ->). exact K.
  - destruct (timers s !! k) as [[[i|] d]|]; [| |discriminate];
      injection H as <-; simpl.
    + destruct (stepTimer_frame i (set_timers (delete k (timers s)) s))
        as [st ->]. exact K.
    + exact K.
Qed.

(** X1.  The flag and the research calls in flight stay in step through
    every run: one call in flight while the flag is set, none while it is
    clear, so never two at once. *)
Theorem one_request_at_a_time marked (es : list event) (s0 s : state) :
  flag_matches_request s0 ->
  run marked es s0 = Some s ->
  flag_matches_request s /\ (researchInFlight s <= 1)%nat.
Proof.
  intros K0 Hrun.
  assert (K : flag_matches_request s).
  { revert s0 K0 Hrun; induction es as [|e es IH]; simpl; intros s0 K0 Hrun.
    - injection Hrun as <-. exact K0.
    - destruct (step marked e s0) as [s1|] eqn:Hstep; [|discriminate].
      exact (IH s1 (step_flag_matches marked e s0 s1 Hstep K0) Hrun). }
  split; [exact K|]. unfold flag_matches_request in K. rewrite K.
  destruct (isLoading s); lia.
Qed.

Lemma one_request_at_a_time_witness :
  flag_matches_request sample_page
  /\ exists s,
       run None [Typed (js "2330"); Submit; Submit; QuickSelect (js "2317")]
         sample_page = Some s
       /\ flag_matches_request s /\ (researchInFlight s <= 1)%nat.
Proof.
  split; [reflexivity|].
  eexists; split; [vm_compute; reflexivity|].
  apply (one_request_at_a_time None
           [Typed (js "2330"); Submit; Submit; QuickSelect (js "2317")]
           sample_page); [reflexivity | vm_compute; reflexivity].
Defined.




(* ===================================================================== *)
(** ** The calls that are issued *)
(* ===================================================================== *)

Lemma quota_calls_app (l1 l2 : list request) :
  quota_calls (l1 ++ l2) = (quota_calls l1 + quota_calls l2)%nat.
Proof. induction l1 as [|[|t] l1 IH]; simpl; congruence. Qed.

Lemma research_calls_app (l1 l2 : list request) :
  research_calls (l1 ++ l2) = (research_calls l1 + research_calls l2)%nat.
Proof. induction l1 as [|[|t] l1 IH]; simpl; congruence. Qed.

Lemma step_calls marked (e : event) (s s' : state) :
  step marked e s = Some s' ->
  quota_calls (calls s') = (quota_calls (calls s) + quota_triggers [e])%nat
  /\ (research_calls (calls s') + researchInFlight s
      = research_calls (calls s) + researchInFlight s' + research_settles [e])%nat.
Proof.
  destruct e as [|text| |ticker| | |o|o|k]; simpl; intros H.
  - injection H as <-. simpl.
    rewrite quota_calls_app, research_calls_app. simpl. lia.
  - injection H as <-. simpl. lia.
  - injection H as <-.
    destruct (handleSearch_cases s) as [->|[->|(_ & _ & ->)]]; simpl; try lia.
    rewrite quota_calls_app, research_calls_app. simpl. lia.
  - injection H as <-. unfold quickSearch.
    destruct (handleSearch_cases
                (on_doc (set_tickerInput (strip_newlines ticker)) s))
      as [->|[->|(_ & _ & ->)]]; simpl; try lia.
    rewrite quota_calls_app, research_calls_app. simpl. lia.
  - injection H as <-. simpl. lia.
  - injection H as <-. simpl.
    rewrite quota_calls_app, research_calls_app. simpl. lia.
  - destruct (researchInFlight s) as [|n]; [discriminate|]. injection H as <-.
    destruct (handleSearch_resume_env marked o
                (set_network (calls s) n (quotaInFlight s) s))
      as (_ & _ & -> & -> & _).
    simpl. rewrite quota_calls_app, research_calls_app. simpl. lia.
  - destruct (quotaInFlight s) as [|n]; [discriminate|]. injection H as <-.
    destruct (updateQuota_resume_frame o
                (set_network (calls s) (researchInFlight s) n s))
      as (q & c & ->). simpl. lia.
  - destruct (timers s !! k) as [[[i|] d]|]; [| |discriminate];
      injection H as <-; simpl.
    + destruct (stepTimer_frame i (set_timers (delete k (timers s)) s))
        as [st ->]. simpl. lia.
    + lia.
Qed.

(** X3.  Over any run, the quota is asked for once per page load, per
    [updateQuota()] and per research call that ends, and at no other time;
    and every research call issued has either ended or is still in
    flight. *)
Theorem calls_accounted_for marked (es : list event) (s0 s : state) :
  run marked es s0 = Some s ->
  quota_calls (calls s) = (quota_calls (calls s0) + quota_triggers es)%nat
  /\ (research_calls (calls s) + researchInFlight s0
      = research_calls (calls s0) + researchInFlight s + research_settles es)%nat.
Proof.
  revert s0; induction es as [|e es IH]; intros s0 Hrun.
  - injection Hrun as <-. simpl. lia.
  - simpl in Hrun.
    destruct (step marked e s0) as [s1|] eqn:Hstep; [|discriminate].
    destruct (IH s1 Hrun) as [IHq IHr].
    destruct (step_calls marked e s0 s1 Hstep) as [Hq Hr].
    assert (Eq : quota_triggers (e :: es)
                 = (quota_triggers [e] + quota_triggers es)%nat)
      by (destruct e; reflexivity).
    assert (Er : research_settles (e :: es)
                 = (research_settles [e] + research_settles es)%nat)
      by (destruct e; reflexivity).
    rewrite Eq, Er. lia.
Qed.

Lemma calls_accounted_for_witness :
  exists s,
    run None [PageLoaded; Typed (js "2330"); Submit; Submit;
              ResearchSettled FetchThrows; QuotaSettled FetchThrows]
      sample_page = Some s
    /\ quota_calls (calls s) = 2%nat
    /\ research_calls (calls s) = 1%nat.
Proof.
  eexists; split; [vm_compute; reflexivity|].
  destruct (calls_accounted_for None
              [PageLoaded; Typed (js "2330"); Submit; Submit;
               ResearchSettled FetchThrows; QuotaSettled FetchThrows]
              sample_page _ ltac:(vm_compute; reflexivity)) as [Hq Hr].
  split; [exact Hq | reflexivity].
Defined.

(** X4.  No handler cancels a timer: an event other than a timer firing
    only adds to the pending timers, and a timer that fires is the only one
    removed. *)
Theorem timers_never_cancelled marked (e : event) (s s' : state) :
  step marked e s = Some s' ->
  match e with
  | TimerFired k => timers s' = delete k (timers s)
  | _ => exists new, timers s' = timers s ++ new
  end.
Proof.
  destruct e as [|text| |ticker| | |o|o|k]; simpl; intros H.
  - injection H as <-. exists []. simpl. rewrite app_nil_r. reflexivity.
  - injection H as <-. exists []. simpl. rewrite app_nil_r. reflexivity.
  - injection H as <-.
    destruct (handleSearch_cases s) as [->|[->|(_ & _ & ->)]].
    + exists []. rewrite app_nil_r. reflexivity.
    + eexists. reflexivity.
    + eexists. simpl. rewrite <- !app_assoc. reflexivity.
  - injection H as <-. unfold quickSearch.
    destruct (handleSearch_cases
                (on_doc (set_tickerInput (strip_newlines ticker)) s))
      as [->|[->|(_ & _ & ->)]].
    + exists []. simpl. rewrite app_nil_r. reflexivity.
    + eexists. reflexivity.
    + eexists. simpl. rewrite <- !app_assoc. reflexivity.
  - injection H as <-. exists []. simpl. rewrite app_nil_r. reflexivity.
  - injection H as <-. exists []. simpl. rewrite app_nil_r. reflexivity.
  - destruct (researchInFlight s) as [|n]; [discriminate|]. injection H as <-.
    destruct (handleSearch_resume_env marked o
                (set_network (calls s) n (quotaInFlight s) s))
      as (_ & -> & _). exists []. simpl. rewrite app_nil_r. reflexivity.
  - destruct (quotaInFlight s) as [|n]; [discriminate|]. injection H as <-.
    destruct (updateQuota_resume_frame o
                (set_network (calls s) (researchInFlight s) n s))
      as (q & c & ->). exists []. simpl. rewrite app_nil_r. reflexivity.
  - destruct (timers s !! k) as [[[i|] d]|]; [| |discriminate];
      injection H as <-; simpl.
    + destruct (stepTimer_frame i (set_timers (delete k (timers s)) s))
        as [st ->]. reflexivity.
    + reflexivity.
Qed.

Lemma timers_never_cancelled_witness :
  exists s',
    step None (ResearchSettled FetchThrows) loading_page = Some s'
    /\ exists new, timers s' = timers loading_page ++ new.
Proof.
  eexists; split; [vm_compute; reflexivity|].
  apply (timers_never_cancelled None (ResearchSettled FetchThrows) loading_page).
  vm_compute; reflexivity.
Defined.

(* ===================================================================== *)
(** ** Starting a request *)
(* ===================================================================== *)

Lemma trimStart_split (s : jsstring) :
  exists l, s = l ++ trimStart s /\ forallb is_white_space l = true.
Proof.
  induction s as [|c s (l & E & Hl)]; simpl.
  - exists []. split; reflexivity.
  - destruct (is_white_space c) eqn:Hc.
    + exists (c :: l). simpl. rewrite Hc, Hl. split; [congruence | reflexivity].
    + exists []. split; reflexivity.
Qed.

Lemma trimStart_head_black (s : jsstring) (c : N) :
  head (trimStart s) = Some c -> is_white_space c = false.
Proof.
  induction s as [|a s IH]; simpl; [discriminate|].
  destruct (is_white_space a) eqn:Ha; [exact IH|].
  simpl. intros [= <-]. exact Ha.
Qed.

Lemma forallb_rev (f : N -> bool) (l : list N) :
  forallb f (rev l) = forallb f l.
Proof.
  induction l as [|a l IH]; simpl; [reflexivity|].
  rewrite forallb_app, IH. simpl. rewrite andb_true_r. apply andb_comm.
Qed.

Lemma last_rev_head (l : list N) : last (rev l) = head l.
Proof. destruct l as [|a l]; simpl; [reflexivity | apply last_snoc]. Qed.

(** What [trim] keeps of a string: the string without a run of white space
    at each end, white space being neither its first nor its last
    character. *)
Lemma trim_spec (s : jsstring) :
  (exists l r, s = l ++ trim s ++ r
               /\ forallb is_white_space l = true
               /\ forallb is_white_space r = true)
  /\ (forall c, head (trim s) = Some c -> is_white_space c = false)
  /\ (forall c, last (trim s) = Some c -> is_white_space c = false).
Proof.
  unfold trim, trimEnd.
  destruct (trimStart_split s) as (l & El & Hl).
  destruct (trimStart_split (rev (trimStart s))) as (r & Er & Hr).
  set (u := trimStart s) in *. set (v := trimStart (rev u)) in *.
  assert (Eu : u = rev v ++ rev r).
  { rewrite <- (rev_involutive u), Er, rev_app_distr. reflexivity. }
  split; [|split].
  - exists l, (rev r). rewrite <- Eu. rewrite forallb_rev. auto.
  - intros c Hc. apply (trimStart_head_black s). fold u. rewrite Eu.
    destruct (rev v); [discriminate | exact Hc].
  - intros c Hc. apply (trimStart_head_black (rev u)). fold v.
    rewrite last_rev_head in Hc. exact Hc.
Qed.

(** X5.  A submit with no request in flight and an input that is not blank
    starts one request: the ticker sent is the input without the white space
    at its two ends, the flag is set, the loading section alone is shown
    with that ticker, and the four step timers are added, due at once and
    after 3, 8 and 15 seconds.  The input field keeps what was typed. *)
Theorem submit_starts_request (s : state) :
  isLoading s = false ->
  trim (tickerInput (doc s)) <> [] ->
  let t := trim (tickerInput (doc s)) in
  let s' := handleSearch s in
  (exists l r, tickerInput (doc s) = l ++ t ++ r
               /\ forallb is_white_space l = true
               /\ forallb is_white_space r = true)
  /\ (forall c, head t = Some c \/ last t = Some c -> is_white_space c = false)
  /\ isLoading s' = true
  /\ calls s' = calls s ++ [PostResearch t]
  /\ researchInFlight s' = S (researchInFlight s)
  /\ views (doc s') = only_loading
  /\ loadingTicker (doc s') = t
  /\ timers s' = timers s ++ [(StepTimer 0, 0); (StepTimer 1, 3000);
                              (StepTimer 2, 8000); (StepTimer 3, 15000)]
  /\ tickerInput (doc s') = tickerInput (doc s).
Proof.
  intros Hl Ht t s'; subst t s'.
  destruct (trim_spec (tickerInput (doc s))) as (Hseg & Hh & Hla).
  split; [exact Hseg|]. split; [intros c [H|H]; auto|].
  unfold handleSearch. rewrite Hl.
  destruct (trim (tickerInput (doc s))) as [|c t]; [congruence|].
  simpl. rewrite <- !app_assoc. repeat split.
Qed.

Lemma submit_starts_request_witness :
  let s := on_doc (set_tickerInput (js "  2330 ")) sample_page in
  isLoading s = false
  /\ trim (tickerInput (doc s)) <> []
  /\ calls (handleSearch s) = calls s ++ [PostResearch (js "2330")]
  /\ loadingTicker (doc (handleSearch s)) = js "2330".
Proof.
  intros s.
  destruct (submit_starts_request s) as (_ & _ & _ & Hc & _ & _ & Ht & _);
    [reflexivity | discriminate |].
  split; [reflexivity|]. split; [discriminate|].
  split; [exact Hc | exact Ht].
Defined.

(* ===================================================================== *)
(** ** The steps of the loading animation *)
(* ===================================================================== *)

Lemma steps_on_step (j : nat) (f : element -> element) (s : state) :
  steps (doc (on_step j f s)) = alter f j (steps (doc s)).
Proof. reflexivity. Qed.

(** X6.  [showLoading] takes the classes [active] and [done] off each of
    the four step elements and leaves their other classes and their text:
    a check mark left on a step by an earlier request stays in its text. *)
Theorem loading_resets_step_classes (ticker : jsstring) (s : state) :
  length (steps (doc s)) = 4%nat ->
  let st' := steps (doc (showLoading ticker s)) in
  st' = map clear_step (steps (doc s))
  /\ Forall (fun el => (js "active" ∉ classes el) /\ (js "done" ∉ classes el)) st'
  /\ map textContent st' = map textContent (steps (doc s)).
Proof.
  intros Hlen st'.
  assert (E : st' = map clear_step (steps (doc s))).
  { subst st'. destruct s as [l d t c r q co ef].
    destruct d as [ti sb v lt st rp et em qv]. simpl in Hlen.
    destruct st as [|e0 [|e1 [|e2 [|e3 [|e4 st]]]]]; try discriminate.
    reflexivity. }
  split; [exact E|]. rewrite E. split.
  - apply Forall_forall. intros el Hel.
    apply list_elem_of_In, in_map_iff in Hel.
    destruct Hel as (e & <- & _). unfold clear_step; simpl.
    rewrite !elem_of_classList_remove, !elem_of_cons. tauto.
  - rewrite map_map. reflexivity.
Qed.

Lemma loading_resets_step_classes_witness :
  length (steps (doc settled_page)) = 4%nat
  /\ map textContent (steps (doc (showLoading (js "2317") settled_page)))
     = map textContent (steps (doc settled_page)).
Proof.
  split; [reflexivity|].
  apply (loading_resets_step_classes (js "2317") settled_page). reflexivity.
Defined.

Lemma fold_on_step_lookup (f : element -> element) (i j : nat) (s : state) :
  steps (doc (fold_left (fun s j => on_step j f s) (seq 0 i) s)) !! j
  = if decide (j < i)%nat then f <$> steps (doc s) !! j else steps (doc s) !! j.
Proof.
  induction i as [|i IH].
  - simpl. destruct (decide (j < 0)%nat); [lia | reflexivity].
  - rewrite seq_S, fold_left_app. cbn [fold_left Nat.add]. rewrite steps_on_step.
    destruct (decide (i = j)) as [->|Hne].
    + rewrite list_lookup_alter_eq, IH.
      destruct (decide (j < j)%nat), (decide (j < S j)%nat); try lia.
      reflexivity.
    + rewrite list_lookup_alter_ne by exact Hne. rewrite IH.
      destruct (decide (j < i)%nat), (decide (j < S i)%nat); try lia;
        reflexivity.
Qed.

Lemma fold_on_step_length (f : element -> element) (l : list nat) (s : state) :
  length (steps (doc (fold_left (fun s j => on_step j f s) l s)))
  = length (steps (doc s)).
Proof.
  revert s; induction l as [|j l IH]; intros s; [reflexivity|].
  cbn [fold_left]. rewrite IH, steps_on_step. apply length_alter.
Qed.

(** X7.  While the flag is set, the timer of step [i] marks every earlier
    step done, gives step [i] the class [active], and leaves the later
    steps as they are. *)
Theorem step_timer_marks (i : nat) (s : state) :
  isLoading s = true ->
  let st := steps (doc s) in
  let st' := steps (doc (stepTimer i s)) in
  length st' = length st
  /\ (forall j, (j < i)%nat -> st' !! j = mark_done <$> st !! j)
  /\ st' !! i = activate <$> st !! i
  /\ (forall j, (i < j)%nat -> st' !! j = st !! j).
Proof.
  intros Hl st st'; subst st st'. unfold stepTimer. rewrite Hl. cbn [negb].
  fold activate. rewrite steps_on_step. split; [|split; [|split]].
  - rewrite length_alter. apply fold_on_step_length.
  - intros j Hj. rewrite list_lookup_alter_ne by lia.
    rewrite fold_on_step_lookup. destruct (decide (j < i)%nat); [reflexivity|lia].
  - rewrite list_lookup_alter_eq, fold_on_step_lookup.
    destruct (decide (i < i)%nat); [lia | reflexivity].
  - intros j Hj. rewrite list_lookup_alter_ne by lia.
    rewrite fold_on_step_lookup. destruct (decide (j < i)%nat); [lia|reflexivity].
Qed.

Lemma step_timer_marks_witness :
  isLoading loading_page = true
  /\ steps (doc (stepTimer 1 loading_page)) !! 0%nat
     = mark_done <$> steps (doc loading_page) !! 0%nat.
Proof.
  split; [reflexivity|].
  destruct (step_timer_marks 1 loading_page) as (_ & H & _); [reflexivity|].
  apply H. lia.
Defined.

Lemma filter_all {A} (P : A -> Prop) `{forall x, Decision (P x)} (l : list A) :
  (forall x, x ∈ l -> P x) -> filter P l = l.
Proof.
  induction l as [|a l IH]; intros Hall; [reflexivity|].
  rewrite filter_cons. destruct (decide (P a)) as [_|Hn].
  - f_equal. apply IH. intros x Hx. apply Hall. right. exact Hx.
  - exfalso. apply Hn, Hall. left.
Qed.

Lemma classList_add_present (t : jsstring) (cl : classList) :
  t ∈ cl -> classList_add t cl = cl.
Proof. intros H. unfold classList_add. destruct (decide (t ∈ cl)); tauto. Qed.

Lemma active_not_done : js "active" <> js "done".
Proof. discriminate. Qed.

Lemma mark_done_eq (el : element) :
  mark_done el
  = {| classes := classList_add (js "done")
                    (classList_remove [js "active"] (classes el));
       textContent := js "✅ " ++ replace (js "✅ ") (js "") (textContent el) |}.
Proof. reflexivity. Qed.

Lemma replace_absent (p r t : jsstring) :
  includes p t = false -> replace p r t = t.
Proof.
  induction t as [|c t IH]; simpl.
  - destruct (strip_prefix p []); [discriminate | reflexivity].
  - destruct (strip_prefix p (c :: t)); [discriminate|].
    intros H. rewrite (IH H). reflexivity.
Qed.

(** X8.  A step whose text is its label, or its label with the check mark
    already before it, is left by [mark_done] with exactly one check mark
    before the label; marking it again changes nothing, and it carries
    [done] and not [active]. *)
Theorem mark_done_once (el : element) (label : jsstring) :
  includes (js "✅ ") label = false ->
  textContent el = label \/ textContent el = js "✅ " ++ label ->
  textContent (mark_done el) = js "✅ " ++ label
  /\ mark_done (mark_done el) = mark_done el
  /\ (js "done" ∈ classes (mark_done el))
  /\ (js "active" ∉ classes (mark_done el)).
Proof.
  intros Hlabel Htext.
  pose proof active_not_done as Had.
  assert (Hd : js "done" ∈ classes (mark_done el)).
  { unfold mark_done; simpl. apply elem_of_classList_add. left; reflexivity. }
  assert (Ha : js "active" ∉ classes (mark_done el)).
  { unfold mark_done; simpl.
    rewrite elem_of_classList_add, elem_of_classList_remove, !elem_of_cons.
    tauto. }
  split; [|split; [|split; [exact Hd | exact Ha]]].
  - rewrite mark_done_eq. cbn [textContent]. f_equal.
    destruct Htext as [-> | ->].
    + apply replace_absent. exact Hlabel.
    + reflexivity.
  - assert (Hkeep : classList_remove [js "active"] (classes (mark_done el))
                    = classes (mark_done el)).
    { apply filter_all. intros x Hx Hin.
      apply list_elem_of_singleton in Hin. subst x. exact (Ha Hx). }
    assert (Hc : classList_add (js "done")
                   (classList_remove [js "active"] (classes (mark_done el)))
                 = classes (mark_done el)).
    { rewrite Hkeep. apply classList_add_present. exact Hd. }
    assert (Ht : js "✅ " ++ replace (js "✅ ") (js "")
                               (textContent (mark_done el))
                 = textContent (mark_done el)) by reflexivity.
    rewrite (mark_done_eq (mark_done el)), Hc, Ht.
    destruct (mark_done el); reflexivity.
Qed.

Lemma mark_done_once_witness :
  let el := {| classes := [js "step"; js "active"]; textContent := js "✅ one" |} in
  includes (js "✅ ") (js "one") = false
  /\ textContent (mark_done el) = js "✅ one"
  /\ mark_done (mark_done el) = mark_done el.
Proof.
  intros el.
  destruct (mark_done_once el (js "one")) as (Ht & Hi & _);
    [reflexivity | right; reflexivity |].
  split; [reflexivity|]. split; [exact Ht | exact Hi].
Defined.

(* ===================================================================== *)
(** ** Showing the report *)
(* ===================================================================== *)

(** X9.  The report section is shown only for a response that is ok and
    whose body parsed to something other than [null]: a call that throws,
    a body that does not parse and a rejection never show a report. *)
Theorem report_needs_ok_body marked (o : outcome) (s : state) :
  views (doc (handleSearch_resume marked o s)) = only_report ->
  exists data, o = Response true (Some data)
               /\ data <> VNull /\ data <> VUndefined.
Proof.
  resume_cases marked o; intros H; try discriminate H;
    eexists; (split; [reflexivity|]); split; discriminate.
Qed.

Lemma report_needs_ok_body_witness :
  views (doc (handleSearch_resume None (Response true (Some cached_report))
                loading_page)) = only_report
  /\ exists data, Response true (Some cached_report) = Response true (Some data)
                  /\ data <> VNull /\ data <> VUndefined.
Proof.
  split; [reflexivity|].
  apply (report_needs_ok_body None _ loading_page). reflexivity.
Defined.

(** [showReport] on an object, inside the [try] of [handleSearch]. *)
Lemma resume_report marked (props : list (jsstring * value)) (s : state) :
  handleSearch_resume marked (Response true (Some (VObj props))) s
  = updateQuota (set_isLoading false
      (snd (try_catch (showReport marked (VObj props))
              (showError (VStr (js "網路連線失敗"))
                         (VStr (js "請確認伺服器是否運行中")))
              s))).
Proof.
  cbv [handleSearch_resume settle try_finally await eval exec mbind mret
       action_bind action_ret].
  cbv [try_catch]. cbn [negb].
  destruct (showReport marked (VObj props) s) as [[|] s1]; [reflexivity|].
  destruct (showError _ _ s1) as [[|] s2]; reflexivity.
Qed.

(** X10.  An ok response whose body is an object shows the report section
    alone, once its ticker and name convert to strings and its content is
    rendered: the ticker as given, the name or nothing, the badge by
    whether [cached] is truthy, and as content what [marked.parse] returns,
    or without [marked] the content as it came between [<pre>] tags, not
    escaped.  The report is scrolled into view and the flag is cleared. *)
Theorem report_shown marked (props : list (jsstring * value))
    (ticker name html : jsstring) (s : state) :
  let content := or_else (lookup_prop (js "content") props) (VStr (js "")) in
  text_of (lookup_prop (js "ticker") props) = Return ticker ->
  text_of (or_else (lookup_prop (js "name") props) (VStr (js "")))
  = Return name ->
  match marked with
  | Some parse => parse content
  | None =>
    match toString content with
    | Return text => Return (js "<pre>" ++ text ++ js "</pre>")
    | Throw => Throw
    end
  end = Return html ->
  let s' := handleSearch_resume marked (Response true (Some (VObj props))) s in
  views (doc s') = only_report
  /\ report (doc s')
     = {| reportTicker := ticker;
          reportName := name;
          reportBadgeText :=
            if truthy (lookup_prop (js "cached") props)
            then js "📦 快取" else js "✨ 即時生成";
          reportBadgeClass :=
            if truthy (lookup_prop (js "cached") props)
            then js "report-badge cached" else js "report-badge fresh";
          reportContent := html |}
  /\ effects s' = effects s ++ [ScrollReportIntoView]
  /\ isLoading s' = false
  /\ errorTitle (doc s') = errorTitle (doc s)
  /\ errorMessage (doc s') = errorMessage (doc s).
Proof.
  intros content Ht Hn H s'; subst s' content. rewrite resume_report.
  cbv [showReport try_catch eval exec mbind mret action_bind action_ret
       get_prop].
  rewrite Ht, Hn. destruct marked as [parse|].
  - rewrite H. repeat split.
  - destruct (toString _); [|discriminate H]. injection H as <-. repeat split.
Qed.

Lemma report_shown_witness :
  let s' := handleSearch_resume None (Response true (Some cached_report))
              loading_page in
  views (doc s') = only_report
  /\ reportContent (report (doc s')) = js "<pre># Report</pre>"
  /\ reportBadgeClass (report (doc s')) = js "report-badge cached".
Proof.
  destruct (report_shown None
              [(js "ticker", VStr (js "AAPL")); (js "cached", VBool true);
               (js "content", VStr (js "# Report"))]
              (js "AAPL") (js "") (js "<pre># Report</pre>") loading_page)
    as (Hv & Hr & _); [reflexivity..|].
  split; [exact Hv|].
  split; [exact (f_equal reportContent Hr) | exact (f_equal reportBadgeClass Hr)].
Defined.

(** X11.  When the content of a report cannot be rendered ([marked.parse]
    throws, or without [marked] the content does not convert to a string),
    the request ends in the error section with the text of a network
    failure, although the call succeeded; the ticker, name and badge of the
    report were already written, its content was not, nothing is scrolled,
    and the flag is cleared and the quota asked for as after any request. *)
Theorem render_failure_shows_error marked (props : list (jsstring * value))
    (ticker name : jsstring) (s : state) :
  let content := or_else (lookup_prop (js "content") props) (VStr (js "")) in
  text_of (lookup_prop (js "ticker") props) = Return ticker ->
  text_of (or_else (lookup_prop (js "name") props) (VStr (js "")))
  = Return name ->
  match marked with
  | Some parse => parse content
  | None => toString content
  end = Throw ->
  let s' := handleSearch_resume marked (Response true (Some (VObj props))) s in
  views (doc s') = only_error
  /\ errorTitle (doc s') = js "網路連線失敗"
  /\ errorMessage (doc s') = js "請確認伺服器是否運行中"
  /\ reportTicker (report (doc s')) = ticker
  /\ reportName (report (doc s')) = name
  /\ reportContent (report (doc s')) = reportContent (report (doc s))
  /\ effects s' = effects s
  /\ isLoading s' = false
  /\ calls s' = calls s ++ [GetQuota].
Proof.
  intros content Ht Hn H s'; subst s' content. rewrite resume_report.
  cbv [showReport showError try_catch eval exec mbind mret action_bind
       action_ret get_prop].
  rewrite Ht, Hn. destruct marked as [parse|]; rewrite H; repeat split.
Qed.

Lemma render_failure_shows_error_witness :
  let parse := fun _ : value => @Throw jsstring in
  let s' := handleSearch_resume (Some parse)
              (Response true (Some cached_report)) loading_page in
  views (doc s') = only_error
  /\ reportTicker (report (doc s')) = js "AAPL".
Proof.
  intros parse.
  destruct (render_failure_shows_error (Some parse)
              [(js "ticker", VStr (js "AAPL")); (js "cached", VBool true);
               (js "content", VStr (js "# Report"))]
              (js "AAPL") (js "") loading_page)
    as (Hv & _ & _ & Ht & _); [reflexivity..|].
  split; [exact Hv | exact Ht].
Defined.

(** X20.  A ticker that does not convert to a string (an object with an
    own [toString], or an array holding one) ends an ok response in the
    error section with the text of a network failure: the conversion throws
    before anything of the report is written, so the report stays as it
    was. *)
Theorem unconvertible_ticker_shows_error marked
    (props : list (jsstring * value)) (s : state) :
  text_of (lookup_prop (js "ticker") props) = Throw ->
  let s' := handleSearch_resume marked (Response true (Some (VObj props))) s in
  views (doc s') = only_error
  /\ errorTitle (doc s') = js "網路連線失敗"
  /\ errorMessage (doc s') = js "請確認伺服器是否運行中"
  /\ report (doc s') = report (doc s)
  /\ isLoading s' = false
  /\ calls s' = calls s ++ [GetQuota].
Proof.
  intros Ht s'; subst s'. rewrite resume_report.
  cbv [showReport showError try_catch eval exec mbind mret action_bind
       action_ret get_prop].
  rewrite Ht. repeat split.
Qed.

Lemma unconvertible_ticker_shows_error_witness :
  let props := [(js "ticker", VObj [(js "toString", VNum 1)]);
                (js "content", VStr (js "# Report"))] in
  let s' := handleSearch_resume None (Response true (Some (VObj props)))
              loading_page in
  text_of (lookup_prop (js "ticker") props) = Throw
  /\ views (doc s') = only_error
  /\ report (doc s') = report (doc loading_page).
Proof.
  intros props.
  destruct (unconvertible_ticker_shows_error None props loading_page)
    as (Hv & _ & _ & Hr & _); [reflexivity|].
  split; [reflexivity|]. split; [exact Hv | exact Hr].
Defined.

(** X12.  A body that is [null] ends a request in the error section with
    the text of a network failure, whether the response was ok or not: the
    first property read off it throws.  The report is left as it was. *)
Theorem null_body_shows_error marked (ok : bool) (s : state) :
  let s' := handleSearch_resume marked (Response ok (Some VNull)) s in
  views (doc s') = only_error
  /\ errorTitle (doc s') = js "網路連線失敗"
  /\ errorMessage (doc s') = js "請確認伺服器是否運行中"
  /\ report (doc s') = report (doc s)
  /\ isLoading s' = false.
Proof. destruct ok; repeat split. Qed.

(* ===================================================================== *)
(** ** Quota responses that are not a quota *)
(* ===================================================================== *)

(** X13.  [updateQuota] does not look at the status of the response: a body
    that is an object without [remaining] and [total], such as the body of
    an error, is shown as "undefined/undefined", and [warning] and [empty]
    are both taken off. *)
Theorem quota_without_fields (ok : bool) (props : list (jsstring * value))
    (s : state) :
  lookup_prop (js "remaining") props = VUndefined ->
  lookup_prop (js "total") props = VUndefined ->
  let el' := quotaValue (doc (updateQuota_resume
               (Response ok (Some (VObj props))) s)) in
  textContent el' = js "undefined/undefined"
  /\ (js "warning" ∉ classes el')
  /\ (js "empty" ∉ classes el')
  /\ console (updateQuota_resume (Response ok (Some (VObj props))) s) = console s.
Proof.
  intros Hr Ht el'; subst el'.
  destruct (updateQuota_resume_read ok (VObj props) s)
    as (r & t & Er & Et & ->); [discriminate..|].
  simpl in Er, Et. rewrite Hr in Er. rewrite Ht in Et.
  injection Er as <-. injection Et as <-.
  cbn [toString]. rewrite quotaValue_on_quotaValue.
  split; [reflexivity|]. split; [|split; [|reflexivity]].
  - rewrite quota_shown_classes. simpl. intuition congruence.
  - rewrite quota_shown_classes. simpl. intuition congruence.
Qed.

Lemma quota_without_fields_witness :
  let el' := quotaValue (doc (updateQuota_resume
               (Response false (Some quota_exceeded)) sample_page)) in
  textContent el' = js "undefined/undefined" /\ (js "warning" ∉ classes el').
Proof.
  destruct (quota_without_fields false
              [(js "error", VStr (js "Quota exceeded"));
               (js "message", VStr (js "Try tomorrow"))] sample_page)
    as (Ht & Hw & _); [reflexivity | reflexivity |].
  split; [exact Ht | exact Hw].
Defined.

(** X14.  [updateQuota] logs a failure, and then changes nothing else, in
    exactly these cases: the call throws, the body does not parse, the body
    is [null], off which no property can be read, or [remaining] or [total]
    does not convert to a string.  Any other body is written to the page. *)
Theorem quota_failure_cases (o : outcome) (s : state) :
  updateQuota_resume o s = console_error (js "Quota check failed:") s
  <-> (throws o = true
       \/ exists ok data,
            o = Response ok (Some data)
            /\ (data = VNull \/ data = VUndefined
                \/ exists remaining total,
                     get_prop data (js "remaining") = Return remaining
                     /\ get_prop data (js "total") = Return total
                     /\ (toString remaining = Throw
                         \/ toString total = Throw))).
Proof.
  assert (Hread : forall ok data, data <> VNull -> data <> VUndefined ->
            (updateQuota_resume (Response ok (Some data)) s
             = console_error (js "Quota check failed:") s
             <-> exists remaining total,
                   get_prop data (js "remaining") = Return remaining
                   /\ get_prop data (js "total") = Return total
                   /\ (toString remaining = Throw \/ toString total = Throw))).
  { intros ok data Hn Hu.
    destruct (updateQuota_resume_read ok data s Hn Hu) as (r & t & Er & Et & E).
    rewrite E. split.
    - intros H. exists r, t. split; [exact Er|]. split; [exact Et|].
      destruct (toString r) as [tr|]; [|left; reflexivity].
      destruct (toString t) as [tt|]; [|right; reflexivity].
      exfalso. apply (f_equal console) in H.
      exact (console_grows (js "Quota check failed:") s (eq_sym H)).
    - intros (r' & t' & Er' & Et' & Hthrow).
      rewrite Er in Er'. rewrite Et in Et'.
      injection Er' as <-. injection Et' as <-.
      destruct Hthrow as [-> | ->]; [reflexivity|].
      destruct (toString r); reflexivity. }
  split.
  - intros H. destruct o as [|ok [data|]]; [left; reflexivity| |left; reflexivity].
    right. exists ok, data. split; [reflexivity|].
    destruct data; first [left; reflexivity | right; left; reflexivity
                         | right; right; apply (Hread ok); [discriminate..|exact H]].
  - intros [H|(ok & data & -> & [-> | [-> | H]])]; [|reflexivity..|].
    + destruct o as [|ok [data|]]; [reflexivity | discriminate | reflexivity].
    + destruct H as (r & t & Er & Et & Hthrow).
      destruct data; try discriminate Er;
        apply (Hread ok); try discriminate; exists r, t; auto.
Qed.

Lemma quota_failure_cases_witness :
  let body := VObj [(js "remaining", VObj [(js "toString", VNum 1)]);
                    (js "total", VNum 5)] in
  updateQuota_resume (Response true (Some body)) sample_page
  = console_error (js "Quota check failed:") sample_page.
Proof.
  intros body.
  apply (quota_failure_cases (Response true (Some body)) sample_page).
  right. exists true, body. split; [reflexivity|]. right; right.
  eexists _, _. split; [reflexivity|]. split; [reflexivity|]. left. reflexivity.
Defined.

(* ===================================================================== *)
(** ** Handlers one after another *)
(* ===================================================================== *)

Lemma handleSearch_when_loading (s : state) :
  isLoading s = true -> handleSearch s = s.
Proof. intros H. unfold handleSearch. rewrite H. reflexivity. Qed.

(** The rest of [handleSearch] leaves the input field alone. *)
Lemma handleSearch_resume_doc_input marked (o : outcome) (s : state) :
  tickerInput (doc (handleSearch_resume marked o s)) = tickerInput (doc s).
Proof. resume_cases marked o; reflexivity. Qed.

Lemma run_reset_typed_submit marked (text : jsstring) (s : state) :
  isLoading s = true ->
  run marked [ResetToSearch; Typed text; Submit] s
  = Some (on_doc (set_tickerInput text) (resetToSearch s)).
Proof.
  intros Hl. cbn [run step].
  rewrite handleSearch_when_loading by exact Hl. reflexivity.
Qed.

Lemma research_settles_in_flight marked (o : outcome) (s : state) :
  researchInFlight s <> 0%nat ->
  exists s',
    step marked (ResearchSettled o) s = Some s'
    /\ s' = handleSearch_resume marked o
              (set_network (calls s) (pred (researchInFlight s))
                 (quotaInFlight s) s).
Proof.
  intros Hn. cbn [step].
  destruct (researchInFlight s) as [|n]; [congruence|].
  eexists. split; reflexivity.
Qed.

(** X15.  [resetToSearch] does not cancel a request in flight.  After it
    the hero section is shown but the flag is still set, so text typed and
    submitted then is not sent; and when the earlier request ends, its
    report or error takes the place of the hero section. *)
Theorem reset_keeps_request marked (o : outcome) (text : jsstring) (s : state) :
  isLoading s = true ->
  researchInFlight s <> 0%nat ->
  exists s1 s2,
    run marked [ResetToSearch; Typed text; Submit] s = Some s1
    /\ views (doc s1) = only_hero
    /\ isLoading s1 = true
    /\ calls s1 = calls s
    /\ step marked (ResearchSettled o) s1 = Some s2
    /\ (views (doc s2) = only_error \/ views (doc s2) = only_report)
    /\ calls s2 = calls s ++ [GetQuota]
    /\ tickerInput (doc s2) = text.
Proof.
  intros Hl Hn.
  destruct (research_settles_in_flight marked o
              (on_doc (set_tickerInput text) (resetToSearch s)) Hn)
    as (x & Hstep & Hx).
  exists (on_doc (set_tickerInput text) (resetToSearch s)), x.
  split; [apply run_reset_typed_submit; exact Hl|].
  split; [reflexivity|]. split; [exact Hl|]. split; [reflexivity|].
  split; [exact Hstep|]. subst x.
  split; [apply handleSearch_resume_views|].
  split.
  - match goal with |- calls (handleSearch_resume _ _ ?y) = _ =>
      destruct (handleSearch_resume_env marked o y) as (_ & _ & -> & _) end.
    reflexivity.
  - rewrite handleSearch_resume_doc_input. reflexivity.
Qed.

Lemma reset_keeps_request_witness :
  isLoading loading_page = true
  /\ researchInFlight loading_page <> 0%nat
  /\ exists s1 s2,
       run None [ResetToSearch; Typed (js "2317"); Submit] loading_page = Some s1
       /\ views (doc s1) = only_hero
       /\ isLoading s1 = true
       /\ calls s1 = calls loading_page
       /\ step None (ResearchSettled FetchThrows) s1 = Some s2
       /\ (views (doc s2) = only_error \/ views (doc s2) = only_report)
       /\ calls s2 = calls loading_page ++ [GetQuota]
       /\ tickerInput (doc s2) = js "2317".
Proof.
  split; [reflexivity|]. split; [vm_compute; discriminate|].
  apply (reset_keeps_request None FetchThrows (js "2317") loading_page);
    [reflexivity | vm_compute; discriminate].
Defined.

(** X16.  When a request has ended, a new one can be started at once: the
    quota call of the ended request goes out first, then the new research
    call with the trimmed text. *)
Theorem resubmit_after_settle marked (o : outcome) (text : jsstring) (s : state) :
  researchInFlight s <> 0%nat ->
  trim text <> [] ->
  exists s',
    run marked [ResearchSettled o; Typed text; Submit] s = Some s'
    /\ calls s' = calls s ++ [GetQuota; PostResearch (trim text)]
    /\ isLoading s' = true
    /\ views (doc s') = only_loading.
Proof.
  intros Hn Ht. simpl.
  destruct (researchInFlight s) as [|n]; [congruence|].
  eexists. split; [reflexivity|].
  set (s1 := handleSearch_resume marked o _).
  destruct (handleSearch_resume_env marked o
              (set_network (calls s) n (quotaInFlight s) s))
    as (Hl & _ & Hc & _). fold s1 in Hl, Hc.
  unfold handleSearch. cbn [isLoading on_doc set_doc doc tickerInput set_tickerInput].
  rewrite Hl. destruct (trim text) as [|c t]; [congruence|].
  simpl. rewrite Hc. simpl. rewrite <- app_assoc. repeat split.
Qed.

Lemma resubmit_after_settle_witness :
  researchInFlight loading_page <> 0%nat
  /\ trim (js " 2317 ") <> []
  /\ exists s',
       run None [ResearchSettled FetchThrows; Typed (js " 2317 "); Submit]
         loading_page = Some s'
       /\ calls s' = calls loading_page ++ [GetQuota; PostResearch (trim (js " 2317 "))]
       /\ isLoading s' = true
       /\ views (doc s') = only_loading.
Proof.
  split; [vm_compute; discriminate|]. split; [vm_compute; discriminate|].
  apply (resubmit_after_settle None FetchThrows (js " 2317 ") loading_page);
    vm_compute; discriminate.
Defined.

(* ===================================================================== *)
(** ** Timers of an earlier request *)
(* ===================================================================== *)

Lemma handleSearch_resume_steps marked (o : outcome) (s : state) :
  steps (doc (handleSearch_resume marked o s)) = steps (doc s).
Proof. resume_cases marked o; reflexivity. Qed.

Lemma showLoading_steps (ticker : jsstring) (s : state) :
  steps (doc (showLoading ticker s))
  = alter clear_step 3%nat (alter clear_step 2%nat (alter clear_step 1%nat
      (alter clear_step 0%nat (steps (doc s))))).
Proof. reflexivity. Qed.

Lemma showLoading_timers (ticker : jsstring) (s : state) :
  timers (showLoading ticker s)
  = timers s ++ [(StepTimer 0, 0); (StepTimer 1, 3000);
                 (StepTimer 2, 8000); (StepTimer 3, 15000)].
Proof. simpl. rewrite <- !app_assoc. reflexivity. Qed.

Lemma timers_fetch (r : request) (s : state) : timers (fetch r s) = timers s.
Proof. destruct r; reflexivity. Qed.

Lemma steps_fetch (r : request) (s : state) :
  steps (doc (fetch r s)) = steps (doc s).
Proof. destruct r; reflexivity. Qed.

(** A submit that starts a request, as a state. *)
Lemma handleSearch_starts (s : state) :
  isLoading s = false ->
  trim (tickerInput (doc s)) <> [] ->
  handleSearch s
  = fetch (PostResearch (trim (tickerInput (doc s))))
      (showLoading (trim (tickerInput (doc s))) (set_isLoading true s)).
Proof.
  intros Hl Ht. unfold handleSearch. rewrite Hl.
  destruct (trim (tickerInput (doc s))); [congruence | reflexivity].
Qed.

(** The timer of step [i], fired while the flag is set, leaves step [i]
    with the class [active]. *)
Lemma stepTimer_activates (i : nat) (s : state) (el : element) :
  isLoading s = true ->
  steps (doc s) !! i = Some el ->
  steps (doc (stepTimer i s)) !! i = Some (activate el).
Proof.
  intros Hl Hel. unfold stepTimer. rewrite Hl. cbn [negb]. fold activate.
  rewrite steps_on_step, list_lookup_alter_eq, fold_on_step_lookup.
  destruct (decide (i < i)%nat); [lia|]. rewrite Hel. reflexivity.
Qed.

(** X17.  A step timer still pending when its request ends is not
    cancelled: once a new request has been started it fires as a timer of
    that request and gives its step the class [active], whatever the new
    request's own timers have done. *)
Theorem stale_timer_acts_on_next_request marked (o : outcome) (text : jsstring)
    (s : state) (k i : nat) (delay : N) :
  researchInFlight s <> 0%nat ->
  trim text <> [] ->
  timers s !! k = Some (StepTimer i, delay) ->
  (i < length (steps (doc s)))%nat ->
  exists s' el,
    run marked [ResearchSettled o; Typed text; Submit; TimerFired k] s = Some s'
    /\ steps (doc s') !! i = Some el
    /\ js "active" ∈ classes el.
Proof.
  intros Hn Ht Hk Hi.
  destruct (research_settles_in_flight marked o s Hn) as (s1 & Hstep & Hs1).
  destruct (handleSearch_resume_env marked o
              (set_network (calls s) (pred (researchInFlight s))
                 (quotaInFlight s) s)) as (Hl1 & Ht1 & _).
  rewrite <- Hs1 in Hl1, Ht1.
  pose proof (handleSearch_resume_steps marked o
                (set_network (calls s) (pred (researchInFlight s))
                   (quotaInFlight s) s)) as Hst1.
  rewrite <- Hs1 in Hst1.
  set (s2 := on_doc (set_tickerInput text) s1).
  assert (Hs3 : handleSearch s2
                = fetch (PostResearch (trim text))
                    (showLoading (trim text) (set_isLoading true s2)))
    by (apply (handleSearch_starts s2); [exact Hl1 | exact Ht]).
  set (s3 := handleSearch s2) in *.
  assert (Hl3 : isLoading s3 = true) by (rewrite Hs3; reflexivity).
  assert (Hk3 : timers s3 !! k = Some (StepTimer i, delay)).
  { rewrite Hs3, timers_fetch, showLoading_timers.
    change (timers (set_isLoading true s2)) with (timers s1).
    rewrite Ht1. apply lookup_app_l_Some. exact Hk. }
  assert (Hlen3 : (i < length (steps (doc s3)))%nat).
  { rewrite Hs3, steps_fetch, showLoading_steps, !length_alter.
    change (steps (doc (set_isLoading true s2))) with (steps (doc s1)).
    rewrite Hst1. exact Hi. }
  destruct (lookup_lt_is_Some_2 _ _ Hlen3) as [el Hel].
  exists (stepTimer i (set_timers (delete k (timers s3)) s3)), (activate el).
  split; [|split].
  - cbn [run]. rewrite Hstep. cbn [run step]. fold s2. fold s3.
    rewrite Hk3. reflexivity.
  - apply stepTimer_activates; [exact Hl3 | exact Hel].
  - apply elem_of_classList_add. left; reflexivity.
Qed.

Lemma stale_timer_acts_on_next_request_witness :
  researchInFlight loading_page <> 0%nat
  /\ trim (js "2317") <> []
  /\ timers loading_page !! 3%nat = Some (StepTimer 3, 15000)
  /\ (3 < length (steps (doc loading_page)))%nat
  /\ exists s' el,
       run None [ResearchSettled FetchThrows; Typed (js "2317"); Submit;
                 TimerFired 3] loading_page = Some s'
       /\ steps (doc s') !! 3%nat = Some el
       /\ js "active" ∈ classes el.
Proof.
  split; [vm_compute; discriminate|]. split; [vm_compute; discriminate|].
  split; [reflexivity|]. split; [vm_compute; lia|].
  apply (stale_timer_acts_on_next_request None FetchThrows (js "2317")
           loading_page 3%nat 3%nat 15000);
    [vm_compute; discriminate | vm_compute; discriminate | reflexivity
    | vm_compute; lia].
Defined.

(* ===================================================================== *)
(** ** Quick selection and reset *)
(* ===================================================================== *)

Lemma strip_newlines_same (t : jsstring) :
  forallb (fun c => negb ((c =? 0x0A) || (c =? 0x0D))) t = true ->
  strip_newlines t = t.
Proof.
  unfold strip_newlines. induction t as [|c t IH]; simpl; [reflexivity|].
  destruct (negb ((c =? 0x0A) || (c =? 0x0D))); simpl; [|discriminate].
  intros H. rewrite (IH H). reflexivity.
Qed.

(** X18.  [quickSearch] puts its ticker in the input field, which keeps it
    without its line breaks (and so as given when it has none), and submits
    it: with no request in flight and a ticker that is not blank, what the
    field holds is sent trimmed and shown in the loading section; with a
    request in flight, the input field is overwritten and nothing else
    happens. *)
Theorem quick_search_sends_trimmed (ticker : jsstring) (s : state) :
  trim (strip_newlines ticker) <> [] ->
  let s' := quickSearch ticker s in
  tickerInput (doc s') = strip_newlines ticker
  /\ (forallb (fun c => negb ((c =? 0x0A) || (c =? 0x0D))) ticker = true ->
      tickerInput (doc s') = ticker)
  /\ (isLoading s = false ->
      calls s' = calls s ++ [PostResearch (trim (strip_newlines ticker))]
      /\ loadingTicker (doc s') = trim (strip_newlines ticker)
      /\ views (doc s') = only_loading
      /\ isLoading s' = true)
  /\ (isLoading s = true ->
      s' = on_doc (set_tickerInput (strip_newlines ticker)) s).
Proof.
  intros Ht s'; subst s'. unfold quickSearch.
  assert (Hin : tickerInput (doc (handleSearch
                  (on_doc (set_tickerInput (strip_newlines ticker)) s)))
                = strip_newlines ticker).
  { destruct (handleSearch_cases
                (on_doc (set_tickerInput (strip_newlines ticker)) s))
      as [->|[->|(_ & _ & ->)]]; reflexivity. }
  split; [exact Hin|]. split; [|split].
  - intros Hline. rewrite Hin. apply strip_newlines_same. exact Hline.
  - intros Hl.
    rewrite (handleSearch_starts
               (on_doc (set_tickerInput (strip_newlines ticker)) s) Hl Ht).
    repeat split.
  - intros Hl. apply handleSearch_when_loading. exact Hl.
Qed.

Lemma quick_search_sends_trimmed_witness :
  let ticker := [0x32; 0x33; 0x0A; 0x33; 0x30; 0x20] in
  trim (strip_newlines ticker) <> []
  /\ tickerInput (doc (quickSearch ticker sample_page)) = js "2330 "
  /\ calls (quickSearch ticker sample_page)
     = calls sample_page ++ [PostResearch (js "2330")].
Proof.
  intros ticker.
  destruct (quick_search_sends_trimmed ticker sample_page)
    as (Hin & _ & H & _); [discriminate|].
  split; [discriminate|]. split; [exact Hin|].
  apply H. reflexivity.
Defined.

(** X19.  [resetToSearch] empties the input field, so a submit that
    follows it at once sends nothing, whatever was typed before: the hero
    section stays on show and no call is added. *)
Theorem submit_after_reset_sends_nothing (s : state) :
  let s' := handleSearch (resetToSearch s) in
  calls s' = calls s
  /\ researchInFlight s' = researchInFlight s
  /\ isLoading s' = isLoading s
  /\ views (doc s') = only_hero
  /\ tickerInput (doc s') = js "".
Proof.
  intros s'; subst s'.
  destruct (handleSearch_cases (resetToSearch s)) as [->|[->|(_ & Hne & _)]];
    [repeat split | repeat split | exfalso; apply Hne; reflexivity].
Qed.
